(** * inventory-hub: groups, tags, supplies and the dashboard

    A shallow embedding of the four pages of the application
    (Dashboard.tsx, Groups.tsx, Supplies.tsx and the Tags page) together
    with the part of the hosted database they talk to.

    Conventions of the model.
    - A price or a quantity is stored, and typed into a form, as a decimal
      ([Q]); the pages read it as a TypeScript [number], a binary64 double
      ([to_number]), and compute with doubles; counts are natural
      numbers.
    - A row id, a user id and a role are strings, as in the sources.
    - [created_at] is a point in time, an integer ([Z]): the database
      orders by it.
    - The database is a record of four tables, each a list of rows in
      insertion order.
    - What the hosted backend decides on its own (row-level security,
      constraints, generated ids and timestamps, the referential action of
      a tag) is not in the sources and is a parameter, [Backend]: every
      request is either rejected with an error or carried out on the whole
      table.
    - A handler returns the database after its requests and the toast it
      shows; the cosmetic component state (dialog open, submitting flag) is
      left out. *)

From Stdlib Require Import List String Bool ZArith QArith Lia.
From Stdlib Require Import Sorting.Sorted Sorting.Permutation.
From Stdlib Require Import Floats.
Import ListNotations.

Local Open Scope string_scope.

(** ** Rows of the four relations *)

Module GroupRow.
Record t := mk {
  id : string;
  name : string;
  description : string;
  created_by : string;
  created_at : Z }.
End GroupRow.

Module MembershipRow.
Record t := mk {
  user_id : string;
  group_id : string;
  role : string }.
End MembershipRow.

Module TagRow.
Record t := mk {
  id : string;
  name : string;
  color : string;
  group_id : string;
  created_by : string }.
End TagRow.

Module SupplyRow.
Record t := mk {
  id : string;
  name : string;
  quantity : Q;
  cost : Q;
  sale_price : Q;
  market_price : Q;
  tag_id : option string;
  group_id : string;
  created_by : string;
  created_at : Z }.
End SupplyRow.

Record Database := mkDatabase {
  groups : list GroupRow.t;
  user_groups : list MembershipRow.t;
  tags : list TagRow.t;
  supplies : list SupplyRow.t }.

(** The authenticated user of [useAuth()]. *)
Record User := mkUser { uid : string; email : string }.

(** ** Numbers *)

(** An integer as a floating-point value with exponent 0. *)
Definition Z2SF (n : Z) : spec_float :=
  match n with
  | Z0 => S754_zero false
  | Zpos p => S754_finite false p 0
  | Zneg p => S754_finite true p 0
  end.

(** The [number] that the client reads for a stored decimal, and that
    [parseFloat] gives for the text of a number input: the binary64
    double nearest to it, ties to even (the quotient of numerator and
    denominator, rounded once). *)
Definition to_number (q : Q) : float :=
  SF2Prim (SFdiv prec emax (Z2SF (Qnum q)) (Z2SF (Zpos (Qden q)))).

(** A double whose sign bit is [s] and that is no NaN. *)
Definition has_sign (s : bool) (x : spec_float) : Prop :=
  match x with
  | S754_zero s' | S754_infinity s' | S754_finite s' _ _ => s' = s
  | S754_nan => False
  end.

(** A double whose sign bit is [s] and that is neither a NaN nor a
    zero. *)
Definition nonzero_with_sign (s : bool) (x : spec_float) : Prop :=
  match x with
  | S754_infinity s' | S754_finite s' _ _ => s' = s
  | S754_zero _ | S754_nan => False
  end.

(** ** The backend client *)

Inductive Table := T_groups | T_user_groups | T_tags | T_supplies.
Inductive Command := SELECT | INSERT | UPDATE | DELETE.

Record PostgrestError := mkError { message : string }.

(** [{ data, error }] of a request. *)
Inductive Response (A : Type) :=
| Data (data : A)
| Error (error : PostgrestError).
Arguments Data {A} data.
Arguments Error {A} error.

(** [data] as the destructuring [const { data } = await ...] sees it:
    [null] when the request failed. *)
Definition data_of {A} (r : Response A) : option A :=
  match r with Data d => Some d | Error _ => None end.

(** What happens to the supplies that reference a tag when the tag is
    deleted: the reference is cleared, or the supplies go with the tag. (A
    schema that forbids the delete instead rejects the request, which is
    [policy] below.) *)
Inductive ReferentialAction := SET_NULL | CASCADE.

(** What the hosted backend decides and the sources do not show:
    whether a request of the session's user is rejected, the id and the
    timestamp given to a new row, and the referential action of
    [supplies.tag_id]. *)
Record Backend := mkBackend {
  policy : string -> Command -> Table -> Database -> option PostgrestError;
  gen_id : Database -> string;
  now : Database -> Z;
  tag_fk_action : ReferentialAction }.

(** Whether a supply references one of the given tags. *)
Definition references (deleted : list TagRow.t) (s : SupplyRow.t) : bool :=
  match SupplyRow.tag_id s with
  | Some t => existsb (fun d => TagRow.id d =? t) deleted
  | None => false
  end.

(** The supply with its [tag_id] set to [null]. *)
Definition clear_tag (s : SupplyRow.t) : SupplyRow.t :=
  SupplyRow.mk (SupplyRow.id s) (SupplyRow.name s) (SupplyRow.quantity s)
    (SupplyRow.cost s) (SupplyRow.sale_price s) (SupplyRow.market_price s) None
    (SupplyRow.group_id s) (SupplyRow.created_by s) (SupplyRow.created_at s).

(** Modelled from the spec: the referential constraint of
    [supplies.tag_id], whose schema is not among the sources ("foreign-key-style
    referential constraints", a [tag_id] always names a tag). When tag
    rows are deleted no supply keeps a reference to them; deleting no row
    changes nothing. *)
Definition on_tags_deleted (action : ReferentialAction) (deleted : list TagRow.t)
    (l : list SupplyRow.t) : list SupplyRow.t :=
  match action with
  | SET_NULL => map (fun s => if references deleted s then clear_tag s else s) l
  | CASCADE => filter (fun s => negb (references deleted s)) l
  end.

(** [.in(column, values)] *)
Definition is_in (x : string) (values : list string) : bool :=
  existsb (String.eqb x) values.

(** [.order('created_at', { ascending: false })]: rows by descending
    creation time. *)
Fixpoint insert_desc (s : SupplyRow.t) (l : list SupplyRow.t) : list SupplyRow.t :=
  match l with
  | [] => [s]
  | x :: l' =>
      if (SupplyRow.created_at x <=? SupplyRow.created_at s)%Z
      then s :: x :: l'
      else x :: insert_desc s l'
  end.

Fixpoint order_created_at_desc (l : list SupplyRow.t) : list SupplyRow.t :=
  match l with
  | [] => []
  | x :: l' => insert_desc x (order_created_at_desc l')
  end.

(** Modelled from the spec: the foreign keys of the schema, which is not
    among the sources. The persistence collaborator has "cascading delete
    support on groups -> tags, supplies, memberships": deleting a group row
    deletes the rows of the three other relations that reference it, and
    the tags that go with the group are deleted like any tag, with the
    referential action on the supplies that are left. *)
Definition delete_group_cascade (action : ReferentialAction) (groupId : string)
    (db : Database) : Database :=
  {| groups := filter (fun g => negb (GroupRow.id g =? groupId)) (groups db);
     user_groups :=
       filter (fun m => negb (MembershipRow.group_id m =? groupId)) (user_groups db);
     tags := filter (fun t => negb (TagRow.group_id t =? groupId)) (tags db);
     supplies :=
       on_tags_deleted action
         (filter (fun t => TagRow.group_id t =? groupId) (tags db))
         (filter (fun s => negb (SupplyRow.group_id s =? groupId)) (supplies db)) |}.

Section Client.

Variable be : Backend.
Variable user : User.

(** One request: rejected by the backend, or carried out. *)
Definition request {A} (c : Command) (t : Table) (db : Database)
    (run : Database * A) : Database * Response A :=
  match policy be (uid user) c t db with
  | Some e => (db, Error e)
  | None => (fst run, Data (snd run))
  end.

(** A read leaves the database as it is. *)
Definition query {A} (t : Table) (db : Database) (rows : A) : Response A :=
  snd (request SELECT t db (db, rows)).

(** [from('user_groups').select('group_id').eq('user_id', userId)] *)
Definition select_user_groups (userId : string) (db : Database)
  : Response (list MembershipRow.t) :=
  query T_user_groups db
    (filter (fun m => MembershipRow.user_id m =? userId) (user_groups db)).

(** [from('supplies').select(...).in('group_id', groupIds)] *)
Definition select_supplies_in (groupIds : list string) (db : Database)
  : Response (list SupplyRow.t) :=
  query T_supplies db
    (filter (fun s => is_in (SupplyRow.group_id s) groupIds) (supplies db)).

(** [... .in('group_id', groupIds).order('created_at', { ascending: false })] *)
Definition select_supplies_in_desc (groupIds : list string) (db : Database)
  : Response (list SupplyRow.t) :=
  query T_supplies db
    (order_created_at_desc
       (filter (fun s => is_in (SupplyRow.group_id s) groupIds) (supplies db))).

(** [from('groups').select('*', { count: 'exact', head: true }).in('id', groupIds)] *)
Definition count_groups_in (groupIds : list string) (db : Database) : Response nat :=
  query T_groups db
    (List.length (filter (fun g => is_in (GroupRow.id g) groupIds) (groups db))).

(** [from('tags').select('*', { count: 'exact', head: true }).in('group_id', groupIds)] *)
Definition count_tags_in (groupIds : list string) (db : Database) : Response nat :=
  query T_tags db
    (List.length (filter (fun t => is_in (TagRow.group_id t) groupIds) (tags db))).

(** [from('tags').select('*').eq('group_id', groupId)] *)
Definition select_tags_eq_group (groupId : string) (db : Database)
  : Response (list TagRow.t) :=
  query T_tags db (filter (fun t => TagRow.group_id t =? groupId) (tags db)).

(** [from('groups').insert({ name, description, created_by }).select().single()]:
    the database supplies the id and the creation time. *)
Definition insert_group (name description created_by : string) (db : Database)
  : Database * Response GroupRow.t :=
  let row := GroupRow.mk (gen_id be db) name description created_by (now be db) in
  request INSERT T_groups db
    ({| groups := groups db ++ [row]; user_groups := user_groups db;
        tags := tags db; supplies := supplies db |}, row).

(** [from('user_groups').insert({ user_id, group_id, role })] *)
Definition insert_user_group (row : MembershipRow.t) (db : Database)
  : Database * Response unit :=
  request INSERT T_user_groups db
    ({| groups := groups db; user_groups := user_groups db ++ [row];
        tags := tags db; supplies := supplies db |}, tt).

(** [from('groups').delete().eq('id', groupId)] *)
Definition delete_group (groupId : string) (db : Database) : Database * Response unit :=
  request DELETE T_groups db
    (delete_group_cascade (tag_fk_action be) groupId db, tt).

(** [from('tags').delete().eq('id', tagId)]: the rows that match are
    removed; matching no row is not an error. *)
Definition delete_tag (tagId : string) (db : Database) : Database * Response unit :=
  request DELETE T_tags db
    ({| groups := groups db; user_groups := user_groups db;
        tags := filter (fun t => negb (TagRow.id t =? tagId)) (tags db);
        supplies :=
          on_tags_deleted (tag_fk_action be)
            (filter (fun t => TagRow.id t =? tagId) (tags db)) (supplies db) |},
     tt).

(** The object literal of a supply write: the seven columns that the
    form holds. *)
Record SupplyPayload := mkPayload {
  p_name : string;
  p_quantity : Q;
  p_cost : Q;
  p_sale_price : Q;
  p_market_price : Q;
  p_tag_id : option string;
  p_group_id : string }.

(** [from('supplies').insert({ ...payload, created_by })] *)
Definition insert_supply (p : SupplyPayload) (created_by : string) (db : Database)
  : Database * Response unit :=
  let row :=
    SupplyRow.mk (gen_id be db) (p_name p) (p_quantity p) (p_cost p)
      (p_sale_price p) (p_market_price p) (p_tag_id p) (p_group_id p)
      created_by (now be db) in
  request INSERT T_supplies db
    ({| groups := groups db; user_groups := user_groups db;
        tags := tags db; supplies := supplies db ++ [row] |}, tt).

(** The columns named in the payload are overwritten, the others kept. *)
Definition update_row (p : SupplyPayload) (s : SupplyRow.t) : SupplyRow.t :=
  SupplyRow.mk (SupplyRow.id s) (p_name p) (p_quantity p) (p_cost p)
    (p_sale_price p) (p_market_price p) (p_tag_id p) (p_group_id p)
    (SupplyRow.created_by s) (SupplyRow.created_at s).

(** [from('supplies').update(payload).eq('id', id)] *)
Definition update_supply (p : SupplyPayload) (id : string) (db : Database)
  : Database * Response unit :=
  request UPDATE T_supplies db
    ({| groups := groups db; user_groups := user_groups db; tags := tags db;
        supplies :=
          map (fun s => if SupplyRow.id s =? id then update_row p s else s)
            (supplies db) |}, tt).

(** [from('supplies').delete().eq('id', id)] *)
Definition delete_supply (id : string) (db : Database) : Database * Response unit :=
  request DELETE T_supplies db
    ({| groups := groups db; user_groups := user_groups db; tags := tags db;
        supplies := filter (fun s => negb (SupplyRow.id s =? id)) (supplies db) |},
     tt).

(** [from('tags').insert({ name, color, group_id, created_by })]: the
    database supplies the id. *)
Definition insert_tag (name color group_id created_by : string) (db : Database)
  : Database * Response unit :=
  let row := TagRow.mk (gen_id be db) name color group_id created_by in
  request INSERT T_tags db
    ({| groups := groups db; user_groups := user_groups db;
        tags := tags db ++ [row]; supplies := supplies db |}, tt).

(** The embedded [user_groups(role)] of a group, filtered on
    [user_groups.user_id]. *)
Definition embedded_roles (userId : string) (db : Database) (g : GroupRow.t)
  : list string :=
  map MembershipRow.role
    (filter (fun m => (MembershipRow.group_id m =? GroupRow.id g)
                      && (MembershipRow.user_id m =? userId))
       (user_groups db)).

(** [from('groups').select('*, user_groups!inner(role)')
      .eq('user_groups.user_id', userId)]: the inner join keeps the groups
    with at least one embedded record. *)
Definition select_groups_inner (userId : string) (db : Database)
  : Response (list (GroupRow.t * list string)) :=
  query T_groups db
    (map (fun g => (g, embedded_roles userId db g))
       (filter (fun g => negb (Nat.eqb (List.length (embedded_roles userId db g)) 0))
          (groups db))).

(** [from('user_groups').select('group_id, groups(id, name)')
      .eq('user_id', userId)]: each membership with the group that its
    [group_id] references, [null] when there is none. *)
Definition select_user_groups_embed (userId : string) (db : Database)
  : Response (list (string * option GroupRow.t)) :=
  query T_user_groups db
    (map (fun m =>
            (MembershipRow.group_id m,
             find (fun g => GroupRow.id g =? MembershipRow.group_id m) (groups db)))
       (filter (fun m => MembershipRow.user_id m =? userId) (user_groups db))).

End Client.

(** ** Toasts *)

Record Toast := mkToast {
  title : string;
  description : string;
  variant : option string }.

Definition destructive (title : string) (e : PostgrestError) : Toast :=
  mkToast title (message e) (Some "destructive").

(** The two icons that mark a gain and a loss. *)
Inductive Icon := TrendingUp | TrendingDown.

(** ** Dashboard.tsx *)

Module Dashboard.

Record Stats := mkStats {
  totalSupplies : nat;
  totalGroups : nat;
  totalTags : nat;
  totalProfit : float }.

(** The initial value of [useState<Stats>]. *)
Definition initialStats : Stats := mkStats 0 0 0 0%float.

(** [x || 0] on a number that may be [null] or [undefined]: zero of
    either sign and NaN are falsy. *)
Definition or_zero (x : option float) : float :=
  match x with
  | Some v => if is_zero v || is_nan v then 0%float else v
  | None => 0%float
  end.

Definition or_zero_count (x : option nat) : nat :=
  match x with
  | Some n => if Nat.eqb n 0 then 0%nat else n
  | None => 0%nat
  end.

(** The callback of [supplies.reduce]. *)
Definition reducer (sum : float) (supply : SupplyRow.t) : float :=
  (sum + ((to_number (SupplyRow.sale_price supply)
           - to_number (SupplyRow.cost supply))
          * to_number (SupplyRow.quantity supply)))%float.

(** [cn(...classes)] of Dashboard.tsx: [classes.filter(Boolean).join(' ')].
    A class is a string or a falsy value ([None]); the empty string is
    falsy as well. *)
Definition is_truthy (c : option string) : bool :=
  match c with
  | Some s => negb (s =? "")
  | None => false
  end.

Definition class_text (c : option string) : string :=
  match c with Some s => s | None => "" end.

Definition cn (classes : list (option string)) : string :=
  String.concat " " (map class_text (filter is_truthy classes)).

(** The icon of the total profit card:
    [stats.totalProfit >= 0 ? TrendingUp : TrendingDown]. *)
Definition profitIcon (stats : Stats) : Icon :=
  if (0 <=? totalProfit stats)%float then TrendingUp else TrendingDown.

(** The class of the amount of the total profit card. *)
Definition profitClassName (stats : Stats) : string :=
  cn [Some "text-2xl font-bold";
      Some (if (0 <=? totalProfit stats)%float
            then "text-success" else "text-destructive")].

Section Page.

Variable be : Backend.
Variable user : User.

(** [loadStats]: the new value of the [stats] state and the toast shown.
    None of the four requests has its [error] inspected and nothing in the
    body throws, so the [catch] branch and its toast are never reached. *)
Definition loadStats (db : Database) (stats : Stats) : Stats * option Toast :=
  let userGroups := data_of (select_user_groups be user (uid user) db) in
  let groupIds :=
    match userGroups with
    | Some rows => map MembershipRow.group_id rows
    | None => []
    end in
  if Nat.eqb (List.length groupIds) 0 then (stats, None)
  else
    let supplies := data_of (select_supplies_in be user groupIds db) in
    let totalProfit :=
      or_zero (option_map (fun l => fold_left reducer l 0%float) supplies) in
    let groupsCount := data_of (count_groups_in be user groupIds db) in
    let tagsCount := data_of (count_tags_in be user groupIds db) in
    ({| totalSupplies := or_zero_count (option_map (@List.length _) supplies);
        totalGroups := or_zero_count groupsCount;
        totalTags := or_zero_count tagsCount;
        totalProfit := totalProfit |}, None).

End Page.

End Dashboard.

(** ** Groups.tsx *)

Module Groups.

Record FormData := mkForm { name : string; description : string }.

(** A row of the [groups] state: the group and the embedded
    [user_groups(role)] records. *)
Record Group := mkGroup { row : GroupRow.t; user_groups_role : list string }.

Section Page.

Variable be : Backend.
Variable user : User.

(** [handleSubmit]: two requests one after the other, the group and then
    the membership of its creator. *)
Definition handleSubmit (formData : FormData) (db : Database) : Database * Toast :=
  match insert_group be user (name formData) (description formData) (uid user) db with
  | (db1, Error groupError) => (db1, destructive "Error al crear grupo" groupError)
  | (db1, Data group) =>
      match
        insert_user_group be user
          (MembershipRow.mk (uid user) (GroupRow.id group) "admin") db1
      with
      | (db2, Error memberError) => (db2, destructive "Error al crear grupo" memberError)
      | (db2, Data _) =>
          (db2, mkToast "Grupo creado" "El grupo ha sido creado exitosamente" None)
      end
  end.

(** [handleDelete]: [confirmed] is the answer to the [confirm] dialog. *)
Definition handleDelete (confirmed : bool) (groupId : string) (db : Database)
  : Database * option Toast :=
  if negb confirmed then (db, None)
  else
    match delete_group be user groupId db with
    | (db1, Error error) => (db1, Some (destructive "Error al eliminar grupo" error))
    | (db1, Data _) =>
        (db1, Some (mkToast "Grupo eliminado"
                      "El grupo ha sido eliminado exitosamente" None))
    end.

(** [loadGroups]: the new [groups] state ([current] being the one before)
    and the toast of the [catch] branch. *)
Definition loadGroups (db : Database) (current : list Group)
  : list Group * option Toast :=
  match select_groups_inner be user (uid user) db with
  | Data data => (map (fun item => mkGroup (fst item) (snd item)) data, None)
  | Error error => (current, Some (destructive "Error al cargar grupos" error))
  end.

(** The role shown on the card:
    [group.user_groups[0]?.role === 'admin' ? 'Administrador' : 'Miembro']. *)
Definition roleLabel (group : Group) : string :=
  match user_groups_role group with
  | role :: _ => if role =? "admin" then "Administrador" else "Miembro"
  | [] => "Miembro"
  end.

(** The card of a group carries the delete button when
    [group.created_by === user?.id]. *)
Definition deleteButton (group : Group) : bool :=
  GroupRow.created_by (row group) =? uid user.

(** What a card offers for deleting its group: the [onClick] of the
    button, [() => handleDelete(group.id)], when the button is rendered
    and nothing otherwise. It is the only call of [handleDelete]. *)
Definition deleteClick (group : Group)
  : option (bool -> Database -> Database * option Toast) :=
  if deleteButton group
  then Some (fun confirmed db => handleDelete confirmed (GroupRow.id (row group)) db)
  else None.

End Page.

End Groups.

(** ** Supplies.tsx *)

Module Supplies.

Record FormData := mkForm {
  name : string;
  quantity : Q;
  cost : Q;
  sale_price : Q;
  market_price : Q;
  tag_id : string;
  group_id : string }.

(** The initial value of the [formData] state. *)
Definition initialForm : FormData := mkForm "" 0 0 0 0 "" "".

(** [value || null] and [value || ''] on strings. *)
Definition or_null (s : string) : option string :=
  if s =? "" then None else Some s.

Definition or_empty (s : option string) : string :=
  match s with
  | Some v => if v =? "" then "" else v
  | None => ""
  end.

(** [onValueChange] of the group selector:
    [setFormData({ ...formData, group_id: value }); setSelectedGroup(value)].
    The result is the form and the selected group. *)
Definition onGroupChange (formData : FormData) (value : string) : FormData * string :=
  (mkForm (name formData) (quantity formData) (cost formData) (sale_price formData)
     (market_price formData) (tag_id formData) value,
   value).

(** [onValueChange] of the tag selector. *)
Definition onTagChange (formData : FormData) (value : string) : FormData :=
  mkForm (name formData) (quantity formData) (cost formData) (sale_price formData)
    (market_price formData) value (group_id formData).

(** [onChange] of the name input. *)
Definition onNameChange (formData : FormData) (value : string) : FormData :=
  mkForm value (quantity formData) (cost formData) (sale_price formData)
    (market_price formData) (tag_id formData) (group_id formData).

(** [handleEdit]: the editing id, the form and the selected group. *)
Definition handleEdit (supply : SupplyRow.t) : option string * FormData * string :=
  (Some (SupplyRow.id supply),
   mkForm (SupplyRow.name supply) (SupplyRow.quantity supply) (SupplyRow.cost supply)
     (SupplyRow.sale_price supply) (SupplyRow.market_price supply)
     (or_empty (SupplyRow.tag_id supply)) (SupplyRow.group_id supply),
   SupplyRow.group_id supply).

(** [calculateProfit] *)
Definition calculateProfit (supply : SupplyRow.t) : float :=
  ((to_number (SupplyRow.sale_price supply) - to_number (SupplyRow.cost supply))
   * to_number (SupplyRow.quantity supply))%float.

(** The constraints that the form declares on its controls: [required] on
    the name, [type="number" min="0" step="0.01" required] on the four
    number inputs, [required] on the group selector. The browser fires
    [onSubmit] only when they hold. *)
Definition number_input_ok (x : Q) : bool :=
  Qle_bool 0 x && Pos.eqb (Qden (Qred (x * 100))) 1.

Definition formConstraints (formData : FormData) : bool :=
  negb (group_id formData =? "")
  && negb (name formData =? "")
  && number_input_ok (quantity formData)
  && number_input_ok (cost formData)
  && number_input_ok (sale_price formData)
  && number_input_ok (market_price formData).

(** The [Group] interface of the page: [{ id, name }]. *)
Module Group.
Record t := mk { id : string; name : string }.
End Group.

(** [disabled={groups.length === 0}] of the button that opens the
    dialog. *)
Definition newButtonDisabled (groups : list Group.t) : bool :=
  Nat.eqb (List.length groups) 0.

Section Page.

Variable be : Backend.
Variable user : User.

(** [loadTags]: the new [tags] state, the options of the tag selector. *)
Definition loadTags (groupId : string) (db : Database) (tags : list TagRow.t)
  : list TagRow.t * option Toast :=
  match select_tags_eq_group be user groupId db with
  | Data data => (data, None)
  | Error error => (tags, Some (destructive "Error al cargar etiquetas" error))
  end.

(** [loadSupplies]: the new [supplies] state. The first request's error
    is not inspected; with no group the function returns before it sets
    the state. *)
Definition loadSupplies (db : Database) (supplies : list SupplyRow.t)
  : list SupplyRow.t * option Toast :=
  let userGroups := data_of (select_user_groups be user (uid user) db) in
  let groupIds :=
    match userGroups with
    | Some rows => map MembershipRow.group_id rows
    | None => []
    end in
  if Nat.eqb (List.length groupIds) 0 then (supplies, None)
  else
    match select_supplies_in_desc be user groupIds db with
    | Data data => (data, None)
    | Error error => (supplies, Some (destructive "Error al cargar insumos" error))
    end.

(** [if (editingId)]: [null] and the empty string are falsy. *)
Definition truthy (s : option string) : option string :=
  match s with
  | Some v => if v =? "" then None else Some v
  | None => None
  end.

(** The payload that both branches of [handleSubmit] build. *)
Definition payload (formData : FormData) : SupplyPayload :=
  mkPayload (name formData) (quantity formData) (cost formData)
    (sale_price formData) (market_price formData)
    (or_null (tag_id formData)) (group_id formData).

(** [handleSubmit]: an update when [editingId] is set, an insert
    otherwise. *)
Definition handleSubmit (editingId : option string) (formData : FormData)
    (db : Database) : Database * Toast :=
  match truthy editingId with
  | Some id =>
      match update_supply be user (payload formData) id db with
      | (db1, Error error) => (db1, destructive "Error al guardar insumo" error)
      | (db1, Data _) =>
          (db1, mkToast "Insumo actualizado"
                  "El insumo ha sido actualizado exitosamente" None)
      end
  | None =>
      match insert_supply be user (payload formData) (uid user) db with
      | (db1, Error error) => (db1, destructive "Error al guardar insumo" error)
      | (db1, Data _) =>
          (db1, mkToast "Insumo creado" "El insumo ha sido creado exitosamente" None)
      end
  end.

(** The submit button of the form: the browser checks the declared
    constraints and only then calls [handleSubmit]. *)
Definition submitForm (editingId : option string) (formData : FormData)
    (db : Database) : Database * option Toast :=
  if formConstraints formData
  then let (db1, t) := handleSubmit editingId formData db in (db1, Some t)
  else (db, None).

(** [loadGroups]: the new [groups] and [selectedGroup] states ([current]
    and [selectedGroup] being the ones before) and the toast of the
    [catch] branch. *)
Definition loadGroups (db : Database) (current : list Group.t)
    (selectedGroup : string) : list Group.t * string * option Toast :=
  match select_user_groups_embed be user (uid user) db with
  | Error error =>
      (current, selectedGroup, Some (destructive "Error al cargar grupos" error))
  | Data data =>
      let groupsData :=
        flat_map
          (fun item =>
             match snd item with
             | Some g => [Group.mk (GroupRow.id g) (GroupRow.name g)]
             | None => []
             end)
          data in
      (groupsData,
       match groupsData with
       | g :: _ => Group.id g
       | [] => selectedGroup
       end,
       None)
  end.

(** [handleDelete]: [confirmed] is the answer to the [confirm] dialog. *)
Definition handleDelete (confirmed : bool) (id : string) (db : Database)
  : Database * option Toast :=
  if negb confirmed then (db, None)
  else
    match delete_supply be user id db with
    | (db1, Error error) => (db1, Some (destructive "Error al eliminar insumo" error))
    | (db1, Data _) =>
        (db1, Some (mkToast "Insumo eliminado"
                      "El insumo ha sido eliminado exitosamente" None))
    end.

End Page.

End Supplies.

(** ** The Tags page *)

Module Tags.

Record FormData := mkForm { name : string; color : string; group_id : string }.

Section Page.

Variable be : Backend.
Variable user : User.

(** [handleDelete] *)
Definition handleDelete (confirmed : bool) (tagId : string) (db : Database)
  : Database * option Toast :=
  if negb confirmed then (db, None)
  else
    match delete_tag be user tagId db with
    | (db1, Error error) => (db1, Some (destructive "Error al eliminar etiqueta" error))
    | (db1, Data _) =>
        (db1, Some (mkToast "Etiqueta eliminada"
                      "La etiqueta ha sido eliminada exitosamente" None))
    end.

(** [handleSubmit] *)
Definition handleSubmit (formData : FormData) (db : Database) : Database * Toast :=
  match
    insert_tag be user (name formData) (color formData) (group_id formData)
      (uid user) db
  with
  | (db1, Error error) => (db1, destructive "Error al crear etiqueta" error)
  | (db1, Data _) =>
      (db1, mkToast "Etiqueta creada" "La etiqueta ha sido creada exitosamente" None)
  end.

End Page.

End Tags.

(** ** The layout of the pages *)

Module DashboardLayout.

Record MenuItem := mkItem { label : string; path : string }.

Definition menuItems : list MenuItem :=
  [mkItem "Dashboard" "/dashboard"; mkItem "Insumos" "/supplies";
   mkItem "Grupos" "/groups"; mkItem "Etiquetas" "/tags"].

(** [location.pathname === item.path] *)
Definition isActive (pathname : string) (item : MenuItem) : bool :=
  pathname =? path item.

(** [variant={isActive ? 'secondary' : 'ghost'}] of the button of each
    item. *)
Definition buttonVariants (pathname : string) : list string :=
  map (fun item => if isActive pathname item then "secondary" else "ghost") menuItems.

End DashboardLayout.

(** ** The vocabulary of the specification

    These definitions follow the words of the specification; the theorems
    below compare them with what the pages compute. *)

(** [isMember(group_id, user_id)] *)
Definition isMember (db : Database) (group_id user_id : string) : bool :=
  existsb
    (fun m => (MembershipRow.group_id m =? group_id)
              && (MembershipRow.user_id m =? user_id))
    (user_groups db).

(** The groups, tags and supplies "in the groups the user is a member of". *)
Definition groupsOf (db : Database) (user_id : string) : list GroupRow.t :=
  filter (fun g => isMember db (GroupRow.id g) user_id) (groups db).

Definition tagsOf (db : Database) (user_id : string) : list TagRow.t :=
  filter (fun t => isMember db (TagRow.group_id t) user_id) (tags db).

Definition suppliesOf (db : Database) (user_id : string) : list SupplyRow.t :=
  filter (fun s => isMember db (SupplyRow.group_id s) user_id) (supplies db).

(** "sum of [profit(supply)] over all supplies", added up from 0 in the
    order of the list, in doubles. *)
Definition sum_of_profits (l : list SupplyRow.t) : float :=
  fold_left PrimFloat.add (map Supplies.calculateProfit l) 0%float.

(** The profit of a supply and the sum of the profits as exact
    decimals. *)
Definition exact_profit (s : SupplyRow.t) : Q :=
  (SupplyRow.sale_price s - SupplyRow.cost s) * SupplyRow.quantity s.

Definition exact_sum_of_profits (l : list SupplyRow.t) : Q :=
  fold_right Qplus 0 (map exact_profit l).

(** "ordered newest-created-first" *)
Definition newest_first (l : list SupplyRow.t) : Prop :=
  StronglySorted
    (fun a b => (SupplyRow.created_at b <= SupplyRow.created_at a)%Z) l.

(** ** Sample data *)

Definition alice : User := mkUser "alice" "alice@example.org".
Definition bob : User := mkUser "bob" "bob@example.org".

(** A backend that accepts every request. *)
Definition permissive : Backend :=
  mkBackend (fun _ _ _ _ => None) (fun _ => "new") (fun _ => 100%Z) SET_NULL.

(** A backend that rejects the inserts into [user_groups] and accepts
    everything else. *)
Definition no_membership_insert : Backend :=
  mkBackend
    (fun _ c t _ =>
       match c, t with
       | INSERT, T_user_groups => Some (mkError "permission denied")
       | _, _ => None
       end)
    (fun _ => "new") (fun _ => 100%Z) SET_NULL.

Definition empty_db : Database := mkDatabase [] [] [] [].

(** The two supplies of the dashboard example of the specification, in one
    group of alice. *)
Definition supply_a : SupplyRow.t :=
  SupplyRow.mk "s1" "bolts" 2 10 15 12 None "g1" "alice" 10.

Definition supply_b : SupplyRow.t :=
  SupplyRow.mk "s2" "nuts" 4 5 3 4 None "g1" "alice" 20.

Definition one_group_db : Database :=
  mkDatabase
    [GroupRow.mk "g1" "workshop" "" "alice" 1]
    [MembershipRow.mk "alice" "g1" "admin"; MembershipRow.mk "bob" "g1" "member"]
    [TagRow.mk "t1" "metal" "#3B82F6" "g1" "alice"]
    [supply_a; supply_b].

(** A supply that costs more than it sells for and of which none is in
    stock, and one whose prices are not binary fractions. *)
Definition supply_out_of_stock : SupplyRow.t :=
  SupplyRow.mk "s3" "washers" 0 5 3 4 None "g1" "alice" 30.

Definition supply_cents : SupplyRow.t :=
  SupplyRow.mk "s4" "glue" 1 (1 # 10) (3 # 10) (3 # 10) None "g1" "alice" 40.

(** Three supplies in one group of alice whose profits are -0.10, -0.20
    and 0.30, and the same three stored in another order. Every number is
    one that the dialog accepts. *)
Definition supply_c : SupplyRow.t :=
  SupplyRow.mk "s5" "tape" 1 (1 # 10) 0 0 None "g1" "alice" 50.

Definition supply_d : SupplyRow.t :=
  SupplyRow.mk "s6" "wire" 1 (2 # 10) 0 0 None "g1" "alice" 60.

Definition supply_e : SupplyRow.t :=
  SupplyRow.mk "s7" "pins" 1 0 (3 # 10) 0 None "g1" "alice" 70.

Definition cents_db : Database :=
  mkDatabase
    [GroupRow.mk "g1" "workshop" "" "alice" 1]
    [MembershipRow.mk "alice" "g1" "admin"]
    []
    [supply_c; supply_d; supply_e].

Definition cents_db_reordered : Database :=
  mkDatabase
    [GroupRow.mk "g1" "workshop" "" "alice" 1]
    [MembershipRow.mk "alice" "g1" "admin"]
    []
    [supply_e; supply_c; supply_d].

(** A user without a group. *)
Definition carol : User := mkUser "carol" "carol@example.org".

(** A backend that rejects the deletes and accepts everything else. *)
Definition no_delete : Backend :=
  mkBackend
    (fun _ c _ _ =>
       match c with
       | DELETE => Some (mkError "permission denied")
       | _ => None
       end)
    (fun _ => "new") (fun _ => 100%Z) SET_NULL.

(** A group of alice whose tag is referenced by a supply of another
    group. *)
Definition shared_tag_db : Database :=
  mkDatabase
    [GroupRow.mk "gA" "A" "" "alice" 1; GroupRow.mk "gB" "B" "" "alice" 2]
    [MembershipRow.mk "alice" "gA" "admin"; MembershipRow.mk "alice" "gB" "admin"]
    [TagRow.mk "tA" "of A" "#10B981" "gA" "alice"]
    [SupplyRow.mk "s1" "bolts" 2 10 15 12 (Some "tA") "gA" "alice" 10;
     SupplyRow.mk "s2" "nuts" 4 5 3 4 (Some "tA") "gB" "alice" 20;
     SupplyRow.mk "s3" "pins" 1 1 2 2 None "gB" "alice" 30].

(** Two groups of alice, each with a tag of its own. *)
Definition two_groups_db : Database :=
  mkDatabase
    [GroupRow.mk "gA" "A" "" "alice" 1; GroupRow.mk "gB" "B" "" "alice" 2]
    [MembershipRow.mk "alice" "gA" "admin"; MembershipRow.mk "alice" "gB" "admin"]
    [TagRow.mk "tA" "of A" "#10B981" "gA" "alice";
     TagRow.mk "tB" "of B" "#EF4444" "gB" "alice"]
    [SupplyRow.mk "s1" "bolts" 2 10 15 12 (Some "tA") "gA" "alice" 10].

(** A form filled in the dialog of the supplies page: group A is chosen,
    then its tag, then the group is changed to B and the name typed. *)
Definition switched_group_form : Supplies.FormData :=
  Supplies.onNameChange
    (fst (Supplies.onGroupChange
            (Supplies.onTagChange
               (fst (Supplies.onGroupChange Supplies.initialForm "gA")) "tA")
            "gB"))
    "washers".

(** A form that no browser would submit: no name, negative numbers. *)
Definition invalid_form : Supplies.FormData :=
  Supplies.mkForm "" (-1) (-2) (-3) (-4) "" "gA".

(** A form that satisfies the declared constraints and names a group that
    does not exist. *)
Definition ghost_group_form : Supplies.FormData :=
  Supplies.mkForm "washers" 1 (5 # 2) 3 3 "" "ghost".


(** The edit button of the first supply of [two_groups_db] is pressed and
    the name changed: the editing id and the form. *)
Definition renamed_s1 : option string * Supplies.FormData :=
  let '(editingId, formData, _) :=
    Supplies.handleEdit
      (SupplyRow.mk "s1" "bolts" 2 10 15 12 (Some "tA") "gA" "alice" 10) in
  (editingId, Supplies.onNameChange formData "washers").

(** Which command [handleSubmit] of the supplies page sends. *)
Definition write_command (editingId : option string) : Command :=
  match Supplies.truthy editingId with
  | Some _ => UPDATE
  | None => INSERT
  end.

(** The seven columns of a row hold what the form holds. *)
Definition written (formData : Supplies.FormData) (s : SupplyRow.t) : Prop :=
  SupplyRow.name s = Supplies.name formData
  /\ SupplyRow.quantity s = Supplies.quantity formData
  /\ SupplyRow.cost s = Supplies.cost formData
  /\ SupplyRow.sale_price s = Supplies.sale_price formData
  /\ SupplyRow.market_price s = Supplies.market_price formData
  /\ SupplyRow.tag_id s = Supplies.or_null (Supplies.tag_id formData)
  /\ SupplyRow.group_id s = Supplies.group_id formData.

(** No supply stores the empty string as its tag. *)
Definition no_empty_tag (l : list SupplyRow.t) : Prop :=
  Forall (fun s => SupplyRow.tag_id s <> Some "") l.

(** A stored supply that the dialog would accept: a name, a group, no
    negative number, no empty-string tag. *)
Definition valid_row (s : SupplyRow.t) : Prop :=
  SupplyRow.name s <> "" /\ SupplyRow.group_id s <> ""
  /\ 0 <= SupplyRow.quantity s /\ 0 <= SupplyRow.cost s
  /\ 0 <= SupplyRow.sale_price s /\ 0 <= SupplyRow.market_price s
  /\ SupplyRow.tag_id s <> Some "".

(** * Properties *)

(** ** Requests *)

Lemma request_accepted {A} be user c t db (run : Database * A) :
  policy be (uid user) c t db = None ->
  request be user c t db run = (fst run, Data (snd run)).
Proof. intros H. unfold request. now rewrite H. Qed.

Lemma request_rejected {A} be user c t db (run : Database * A) e :
  policy be (uid user) c t db = Some e ->
  request be user c t db run = (db, Error e).
Proof. intros H. unfold request. now rewrite H. Qed.

Lemma query_accepted {A} be user t db (rows : A) :
  policy be (uid user) SELECT t db = None ->
  query be user t db rows = Data rows.
Proof. intros H. unfold query. now rewrite request_accepted. Qed.

(** ** Membership *)

Lemma is_in_group_ids (ms : list MembershipRow.t) (g u : string) :
  is_in g
    (map MembershipRow.group_id (filter (fun m => MembershipRow.user_id m =? u) ms))
  = existsb
      (fun m => (MembershipRow.group_id m =? g) && (MembershipRow.user_id m =? u)) ms.
Proof.
  unfold is_in. induction ms as [|m ms IH]; simpl; [reflexivity|].
  destruct (MembershipRow.user_id m =? u); simpl.
  - rewrite IH, (String.eqb_sym g). now rewrite andb_true_r.
  - rewrite IH. now rewrite andb_false_r.
Qed.

Lemma no_group_ids (ms : list MembershipRow.t) (u : string) :
  filter (fun m => MembershipRow.user_id m =? u) ms = [] ->
  forall g,
    existsb
      (fun m => (MembershipRow.group_id m =? g) && (MembershipRow.user_id m =? u)) ms
    = false.
Proof.
  intros H g. rewrite <- is_in_group_ids, H. reflexivity.
Qed.

Lemma filter_none {A} (f : A -> bool) (l : list A) :
  (forall x, f x = false) -> filter f l = [].
Proof.
  intros H. induction l as [|x l IH]; simpl; [reflexivity|]. now rewrite H.
Qed.

Lemma filter_none_in {A} (f : A -> bool) (l : list A) :
  (forall x, In x l -> f x = false) -> filter f l = [].
Proof.
  intros H. induction l as [|x l IH]; [reflexivity|]. cbn.
  rewrite (H x) by now left. apply IH. intros y Hy. apply H. now right.
Qed.

Lemma filter_all_in {A} (f : A -> bool) (l : list A) :
  (forall x, In x l -> f x = true) -> filter f l = l.
Proof.
  intros H. induction l as [|x l IH]; [reflexivity|]. cbn.
  rewrite (H x) by now left. f_equal. apply IH. intros y Hy. apply H. now right.
Qed.

(** ** Sums *)

Lemma fold_reducer (l : list SupplyRow.t) (a : float) :
  fold_left Dashboard.reducer l a
  = fold_left PrimFloat.add (map Supplies.calculateProfit l) a.
Proof.
  revert a. induction l as [|s l IH]; intros a; [reflexivity|].
  cbn [fold_left map]. rewrite IH. reflexivity.
Qed.

Lemma or_zero_count_some (n : nat) : Dashboard.or_zero_count (Some n) = n.
Proof. destruct n; reflexivity. Qed.

(** ** Doubles

    The sign of a difference and of a product of doubles, from the
    definitions of the operations on their binary representation. *)

Section Doubles.

Local Open Scope Z_scope.

Lemma digits2_pos_bounds (m : positive) :
  2 ^ (Zpos (digits2_pos m) - 1) <= Zpos m < 2 ^ Zpos (digits2_pos m).
Proof.
  induction m as [m IH | m IH |]; cbn [digits2_pos].
  - rewrite Pos2Z.inj_succ, (Pos2Z.inj_xI m).
    replace (Z.succ (Zpos (digits2_pos m)) - 1)
      with (Z.succ (Zpos (digits2_pos m) - 1)) by lia.
    rewrite !Z.pow_succ_r by lia.
    generalize dependent (2 ^ (Zpos (digits2_pos m) - 1)).
    generalize (2 ^ Zpos (digits2_pos m)). lia.
  - rewrite Pos2Z.inj_succ, (Pos2Z.inj_xO m).
    replace (Z.succ (Zpos (digits2_pos m)) - 1)
      with (Z.succ (Zpos (digits2_pos m) - 1)) by lia.
    rewrite !Z.pow_succ_r by lia.
    generalize dependent (2 ^ (Zpos (digits2_pos m) - 1)).
    generalize (2 ^ Zpos (digits2_pos m)). lia.
  - cbn. lia.
Qed.

Lemma iter_xO_value (m d : positive) :
  Zpos (Pos.iter xO m d) = Zpos m * 2 ^ Zpos d.
Proof.
  induction d as [|d IH] using Pos.peano_ind.
  - cbn. lia.
  - rewrite Pos.iter_succ, (Pos2Z.inj_xO (Pos.iter xO m d)), IH, Pos2Z.inj_succ, Z.pow_succ_r by lia. lia.
Qed.

Lemma shl_align_value (m : positive) (e ez : Z) :
  ez <= e -> Zpos (fst (shl_align m e ez)) = Zpos m * 2 ^ (e - ez).
Proof.
  intros H. unfold shl_align. destruct (ez - e) as [|d|d] eqn:E; cbn [fst].
  - replace (e - ez) with 0 by lia. lia.
  - lia.
  - rewrite iter_xO_value. replace (e - ez) with (Zpos d) by lia. reflexivity.
Qed.

Lemma shl_align_exponent (m : positive) (e ez : Z) :
  snd (shl_align m e ez) = Z.min e ez.
Proof.
  unfold shl_align. destruct (ez - e) as [|d|d] eqn:E; cbn [snd]; lia.
Qed.

Lemma shr_1_div2 (mrs : shr_record) :
  0 <= shr_m mrs -> shr_m (shr_1 mrs) = shr_m mrs / 2.
Proof.
  destruct mrs as [m r s]. cbn [shr_m]. intros H.
  destruct m as [|p|p]; [reflexivity| |lia].
  destruct p as [p|p|]; cbn [shr_1 shr_m].
  - rewrite (Pos2Z.inj_xI p). apply (Z.div_unique _ _ _ 1); lia.
  - rewrite (Pos2Z.inj_xO p). apply (Z.div_unique _ _ _ 0); lia.
  - reflexivity.
Qed.

Lemma iter_pos_shr_1 (p : positive) (mrs : shr_record) :
  0 <= shr_m mrs ->
  shr_m (iter_pos shr_1 p mrs) = shr_m mrs / 2 ^ Zpos p.
Proof.
  revert mrs. induction p as [p IH | p IH |]; intros mrs H; cbn [iter_pos].
  - assert (H1 : 0 <= shr_m (shr_1 mrs))
      by (rewrite shr_1_div2 by assumption; apply Z.div_pos; lia).
    assert (H2 : 0 <= shr_m (iter_pos shr_1 p (shr_1 mrs)))
      by (rewrite IH by assumption; apply Z.div_pos; [assumption | lia]).
    rewrite IH, IH, shr_1_div2 by assumption.
    rewrite !Z.div_div by lia. f_equal.
    rewrite (Pos2Z.inj_xI p).
    replace (2 * Zpos p + 1) with (Z.succ (Zpos p + Zpos p)) by lia.
    rewrite Z.pow_succ_r, Z.pow_add_r by lia. lia.
  - assert (H2 : 0 <= shr_m (iter_pos shr_1 p mrs))
      by (rewrite IH by assumption; apply Z.div_pos; [assumption | lia]).
    rewrite IH, IH by assumption.
    rewrite !Z.div_div by lia. f_equal.
    rewrite (Pos2Z.inj_xO p).
    replace (2 * Zpos p) with (Zpos p + Zpos p) by lia.
    rewrite Z.pow_add_r by lia. reflexivity.
  - rewrite shr_1_div2 by assumption. reflexivity.
Qed.

Lemma shr_record_of_loc_m (m : Z) (l : location) :
  shr_m (shr_record_of_loc m l) = m.
Proof. destruct l as [|[]]; reflexivity. Qed.

Lemma shr_fexp_nonneg (m e : Z) (l : location) :
  0 <= m -> 0 <= shr_m (fst (shr_fexp prec emax m e l)).
Proof.
  intros H. unfold shr_fexp, shr.
  destruct (fexp prec emax (Zdigits2 m + e) - e) as [|p|p]; cbn [fst];
    rewrite ?iter_pos_shr_1; rewrite ?shr_record_of_loc_m; try assumption.
  apply Z.div_pos; [assumption | lia].
Qed.

Lemma shr_fexp_pos (m : positive) (e : Z) (l : location) :
  SpecFloat.emin prec emax <= e ->
  0 < shr_m (fst (shr_fexp prec emax (Zpos m) e l))
  /\ SpecFloat.emin prec emax <= snd (shr_fexp prec emax (Zpos m) e l).
Proof.
  intros He. unfold shr_fexp, shr. cbn [Zdigits2].
  pose proof (digits2_pos_bounds m) as Hd.
  destruct (fexp prec emax (Zpos (digits2_pos m) + e) - e) as [|p|p] eqn:En;
    cbn [fst snd]; rewrite ?shr_record_of_loc_m; try (split; [lia | assumption]).
  rewrite iter_pos_shr_1 by (rewrite shr_record_of_loc_m; lia).
  rewrite shr_record_of_loc_m.
  unfold fexp, SpecFloat.emin in *. change prec with 53 in *. change emax with 1024 in *.
  assert (Hp : Zpos p = Zpos (digits2_pos m) - 53) by lia.
  split; [|lia].
  apply Z.lt_le_trans with 1; [lia|].
  apply Z.div_le_lower_bound; [lia|]. rewrite Z.mul_1_r.
  apply Z.le_trans with (2 ^ (Zpos (digits2_pos m) - 1)); [|lia].
  apply Z.pow_le_mono_r; lia.
Qed.

Lemma round_nearest_even_ge (m : Z) (l : location) :
  m <= round_nearest_even m l.
Proof.
  unfold round_nearest_even. destruct l as [|[]]; try lia.
  destruct (Z.even m); lia.
Qed.

Lemma binary_round_aux_sign (s : bool) (m e : Z) (l : location) :
  0 <= m -> has_sign s (binary_round_aux prec emax s m e l).
Proof.
  intros H. unfold binary_round_aux.
  pose proof (shr_fexp_nonneg m e l H) as H1.
  destruct (shr_fexp prec emax m e l) as [mrs' e']. cbn [fst] in H1.
  pose proof (round_nearest_even_ge (shr_m mrs') (loc_of_shr_record mrs')) as H2.
  pose proof (shr_fexp_nonneg
                (round_nearest_even (shr_m mrs') (loc_of_shr_record mrs')) e'
                loc_Exact ltac:(lia)) as H3.
  destruct (shr_fexp prec emax _ e' loc_Exact) as [mrs'' e'']. cbn [fst] in H3.
  destruct (shr_m mrs'') as [|p|p]; [reflexivity| |lia].
  destruct (e'' <=? emax - prec); reflexivity.
Qed.

Lemma binary_round_aux_nonzero (s : bool) (m : positive) (e : Z) (l : location) :
  SpecFloat.emin prec emax <= e ->
  nonzero_with_sign s (binary_round_aux prec emax s (Zpos m) e l).
Proof.
  intros He. unfold binary_round_aux.
  destruct (shr_fexp_pos m e l He) as [H1 He'].
  destruct (shr_fexp prec emax (Zpos m) e l) as [mrs' e']. cbn [fst snd] in H1, He'.
  pose proof (round_nearest_even_ge (shr_m mrs') (loc_of_shr_record mrs')) as H2.
  destruct (round_nearest_even (shr_m mrs') (loc_of_shr_record mrs')) as [|m1|m1];
    try lia.
  destruct (shr_fexp_pos m1 e' loc_Exact He') as [H3 _].
  destruct (shr_fexp prec emax (Zpos m1) e' loc_Exact) as [mrs'' e''].
  cbn [fst] in H3.
  destruct (shr_m mrs'') as [|p|p]; try lia.
  destruct (e'' <=? emax - prec); reflexivity.
Qed.

Lemma binary_round_nonzero (s : bool) (m : positive) (e : Z) :
  SpecFloat.emin prec emax <= e ->
  nonzero_with_sign s (binary_round prec emax s m e).
Proof.
  intros He. unfold binary_round.
  pose proof (shl_align_exponent m e (fexp prec emax (Zpos (digits2_pos m) + e))) as Hs.
  destruct (shl_align m e (fexp prec emax (Zpos (digits2_pos m) + e))) as [mz ez].
  cbn [snd] in Hs. apply binary_round_aux_nonzero.
  unfold fexp, SpecFloat.emin in *. lia.
Qed.

Lemma valid_finite_bounds (s : bool) (m : positive) (e : Z) :
  valid_binary (S754_finite s m e) = true ->
  SpecFloat.emin prec emax <= e
  /\ Zpos (digits2_pos m) <= 53
  /\ (SpecFloat.emin prec emax < e -> Zpos (digits2_pos m) = 53).
Proof.
  cbn [SpecFloat.valid_binary]. unfold bounded, canonical_mantissa.
  intros H. apply andb_prop in H as [H _]. apply Z.eqb_eq in H.
  unfold fexp, SpecFloat.emin in *. change prec with 53 in *. change emax with 1024 in *.
  lia.
Qed.

Lemma larger_exponent_larger (m1 m2 : positive) (e1 e2 : Z) :
  Zpos (digits2_pos m1) <= 53 -> Zpos (digits2_pos m2) = 53 -> e1 < e2 ->
  Zpos m1 < Zpos m2 * 2 ^ (e2 - e1).
Proof.
  intros H1 H2 He.
  pose proof (digits2_pos_bounds m1) as B1. pose proof (digits2_pos_bounds m2) as B2.
  rewrite H2 in B2.
  assert (P1 : 2 ^ Zpos (digits2_pos m1) <= 2 ^ 53) by (apply Z.pow_le_mono_r; lia).
  assert (P2 : 2 ^ 1 <= 2 ^ (e2 - e1)) by (apply Z.pow_le_mono_r; lia).
  change (2 ^ 1) with 2 in P2. change (2 ^ (53 - 1)) with 4503599627370496 in B2.
  change (2 ^ 53) with 9007199254740992 in *.
  nia.
Qed.

Lemma SFltb_aligned (sa sb : bool) (ma mb : positive) (ea eb : Z) :
  valid_binary (S754_finite sa ma ea) = true ->
  valid_binary (S754_finite sb mb eb) = true ->
  SFltb (S754_finite sa ma ea) (S754_finite sb mb eb) = true ->
  cond_Zopp sa (Zpos (fst (shl_align ma ea (Z.min ea eb))))
  - cond_Zopp sb (Zpos (fst (shl_align mb eb (Z.min ea eb)))) < 0.
Proof.
  intros Va Vb Hlt.
  destruct (valid_finite_bounds _ _ _ Va) as (Ea & Da & Na).
  destruct (valid_finite_bounds _ _ _ Vb) as (Eb & Db & Nb).
  rewrite !shl_align_value by lia.
  assert (Pa : 0 < 2 ^ (ea - Z.min ea eb)) by (apply Z.pow_pos_nonneg; lia).
  assert (Pb : 0 < 2 ^ (eb - Z.min ea eb)) by (apply Z.pow_pos_nonneg; lia).
  unfold SFltb, SFcompare in Hlt.
  destruct sa, sb; cbn [cond_Zopp]; try discriminate Hlt.
  - destruct (Z.compare_spec ea eb) as [E | E | E]; try discriminate Hlt.
    + subst eb. rewrite Z.min_id, Z.sub_diag in *. change (2 ^ 0) with 1.
      destruct (Pos.compare_cont Eq ma mb) eqn:C; try discriminate Hlt.
      change (Pos.compare_cont Eq ma mb) with (Pos.compare ma mb) in C.
      apply Pos.compare_gt_iff, Pos2Z.pos_lt_pos in C. lia.
    + pose proof (larger_exponent_larger mb ma eb ea Db (Na ltac:(lia)) E) as L.
      rewrite Z.min_r in * by lia. rewrite Z.sub_diag. change (2 ^ 0) with 1. lia.
  - nia.
  - destruct (Z.compare_spec ea eb) as [E | E | E]; try discriminate Hlt.
    + subst eb. rewrite Z.min_id, Z.sub_diag in *. change (2 ^ 0) with 1.
      change (Pos.compare_cont Eq ma mb) with (Pos.compare ma mb) in Hlt.
      destruct (Pos.compare ma mb) eqn:C; try discriminate Hlt.
      apply Pos.compare_lt_iff, Pos2Z.pos_lt_pos in C. lia.
    + pose proof (larger_exponent_larger ma mb ea eb Da (Nb ltac:(lia)) E) as L.
      rewrite Z.min_l in * by lia. rewrite Z.sub_diag. change (2 ^ 0) with 1. lia.
Qed.

Lemma SFsub_negative (a b : spec_float) :
  valid_binary a = true -> valid_binary b = true ->
  SFltb a b = true ->
  nonzero_with_sign true (SFsub prec emax a b).
Proof.
  intros Va Vb Hlt.
  destruct a as [sa | sa | | sa ma ea], b as [sb | sb | | sb mb eb];
    try discriminate Hlt;
    try (destruct sa; try discriminate Hlt; destruct sb; try discriminate Hlt;
         reflexivity);
    try (destruct sa; try discriminate Hlt; reflexivity);
    try (destruct sb; try discriminate Hlt; reflexivity).
  pose proof (SFltb_aligned _ _ _ _ _ _ Va Vb Hlt) as Hneg.
  destruct (valid_finite_bounds _ _ _ Va) as (Ea & _).
  destruct (valid_finite_bounds _ _ _ Vb) as (Eb & _).
  unfold SFsub, binary_normalize.
  destruct (cond_Zopp sa _ - cond_Zopp sb _) as [|p|p]; try lia.
  apply binary_round_nonzero. lia.
Qed.

Lemma SFmul_negative (d q : spec_float) :
  nonzero_with_sign true d -> nonzero_with_sign false q ->
  has_sign true (SFmul prec emax d q).
Proof.
  destruct d as [sd | sd | | sd md ed], q as [sq | sq | | sq mq eq];
    cbn [nonzero_with_sign]; try contradiction; intros -> ->; cbn [SFmul xorb].
  - reflexivity.
  - reflexivity.
  - reflexivity.
  - apply binary_round_aux_sign. lia.
Qed.

Lemma SFltb_zero_positive (q : spec_float) :
  SFltb (S754_zero false) q = true -> nonzero_with_sign false q.
Proof.
  destruct q as [s | [|] | | [|] m e]; try discriminate; reflexivity.
Qed.

Lemma has_sign_true_leb_zero (p : spec_float) :
  has_sign true p -> SFleb p (S754_zero false) = true.
Proof.
  destruct p as [s | s | | s m e]; cbn [has_sign]; try contradiction;
    intros ->; reflexivity.
Qed.


Lemma shr_fexp_pos_magnitude (m : positive) (e : Z) (l : location) :
  SpecFloat.emin prec emax <= Zpos (digits2_pos m) + e - 1 ->
  0 < shr_m (fst (shr_fexp prec emax (Zpos m) e l))
  /\ SpecFloat.emin prec emax <= snd (shr_fexp prec emax (Zpos m) e l).
Proof.
  intros He. unfold shr_fexp, shr. cbn [Zdigits2].
  pose proof (digits2_pos_bounds m) as Hd.
  unfold fexp, SpecFloat.emin in *. change prec with 53 in *. change emax with 1024 in *.
  destruct (Z.max (Zpos (digits2_pos m) + e - 53) (3 - 1024 - 53) - e) as [|p|p] eqn:En;
    cbn [fst snd]; rewrite ?shr_record_of_loc_m; try (split; lia).
  rewrite iter_pos_shr_1 by (rewrite shr_record_of_loc_m; lia).
  rewrite shr_record_of_loc_m.
  split; [|lia].
  apply Z.lt_le_trans with 1; [lia|].
  apply Z.div_le_lower_bound; [lia|]. rewrite Z.mul_1_r.
  apply Z.le_trans with (2 ^ (Zpos (digits2_pos m) - 1)); [|lia].
  apply Z.pow_le_mono_r; lia.
Qed.

Lemma binary_round_aux_nonzero_magnitude (s : bool) (m : positive) (e : Z)
    (l : location) :
  SpecFloat.emin prec emax <= Zpos (digits2_pos m) + e - 1 ->
  nonzero_with_sign s (binary_round_aux prec emax s (Zpos m) e l).
Proof.
  intros He. unfold binary_round_aux.
  destruct (shr_fexp_pos_magnitude m e l He) as [H1 He'].
  destruct (shr_fexp prec emax (Zpos m) e l) as [mrs' e']. cbn [fst snd] in H1, He'.
  pose proof (round_nearest_even_ge (shr_m mrs') (loc_of_shr_record mrs')) as H2.
  destruct (round_nearest_even (shr_m mrs') (loc_of_shr_record mrs')) as [|m1|m1];
    try lia.
  destruct (shr_fexp_pos m1 e' loc_Exact He') as [H3 _].
  destruct (shr_fexp prec emax (Zpos m1) e' loc_Exact) as [mrs'' e''].
  cbn [fst] in H3.
  destruct (shr_m mrs'') as [|p|p]; try lia.
  destruct (e'' <=? emax - prec); reflexivity.
Qed.

Lemma digits2_pos_mul (m1 m2 : positive) :
  Zpos (digits2_pos m1) + Zpos (digits2_pos m2) - 1 <= Zpos (digits2_pos (m1 * m2)).
Proof.
  pose proof (digits2_pos_bounds m1) as B1. pose proof (digits2_pos_bounds m2) as B2.
  pose proof (digits2_pos_bounds (m1 * m2)) as B.
  assert (H : 2 ^ (Zpos (digits2_pos m1) - 1 + (Zpos (digits2_pos m2) - 1))
              < 2 ^ Zpos (digits2_pos (m1 * m2))).
  { rewrite Z.pow_add_r by lia. rewrite Pos2Z.inj_mul in B.
    apply Z.le_lt_trans with (Zpos m1 * Zpos m2); [|lia].
    apply Z.mul_le_mono_nonneg; try lia; apply Z.pow_nonneg; lia. }
  apply Z.pow_lt_mono_r_iff in H; lia.
Qed.

Lemma SFleb_one_magnitude (s : bool) (m : positive) (e : Z) :
  valid_binary (S754_finite s m e) = true ->
  SFleb (S754_finite false 4503599627370496 (-52)) (S754_finite s m e) = true ->
  s = false /\ 1 <= Zpos (digits2_pos m) + e.
Proof.
  intros V H. destruct (valid_finite_bounds s m e V) as (_ & _ & Hd).
  unfold SpecFloat.emin in Hd. change prec with 53 in Hd. change emax with 1024 in Hd.
  unfold SFleb, SFcompare in H. destruct s; [discriminate|]. split; [reflexivity|].
  destruct (-52 ?= e) eqn:C.
  - apply Z.compare_eq in C. lia.
  - change (-52 < e) in C. lia.
  - discriminate.
Qed.

Lemma SFmul_strictly_negative (d q : spec_float) :
  valid_binary d = true -> valid_binary q = true ->
  nonzero_with_sign true d ->
  SFleb (S754_finite false 4503599627370496 (-52)) q = true ->
  nonzero_with_sign true (SFmul prec emax d q).
Proof.
  intros Vd Vq Hd Hq.
  destruct d as [sd | sd | | sd md ed]; cbn [nonzero_with_sign] in Hd;
    try contradiction; subst sd;
    destruct q as [sq | [|] | | sq mq eq]; try discriminate; try reflexivity;
    destruct (SFleb_one_magnitude sq mq eq Vq Hq) as [-> Hm]; [reflexivity|].
  destruct (valid_finite_bounds true md ed Vd) as (He & _ & _).
  cbn [SFmul xorb]. apply binary_round_aux_nonzero_magnitude.
  pose proof (digits2_pos_mul md mq) as Hmul.
  pose proof (Pos2Z.is_pos (digits2_pos md)). lia.
Qed.

Lemma nonzero_true_ltb_zero (p : spec_float) :
  nonzero_with_sign true p -> SFltb p (S754_zero false) = true.
Proof.
  destruct p as [s | s | | s m e]; cbn [nonzero_with_sign]; try contradiction;
    intros ->; reflexivity.
Qed.

Lemma has_sign_true_not_zero (p : spec_float) :
  has_sign true p -> SFeqb p (S754_zero false) = false ->
  SFltb p (S754_zero false) = true.
Proof.
  destruct p as [s | s | | s m e]; cbn [has_sign]; try contradiction;
    intros -> H; try reflexivity.
  cbn in H. discriminate H.
Qed.

Lemma SFmul_zero_not_negative (d : spec_float) :
  SFltb (SFmul prec emax d (S754_zero false)) (S754_zero false) = false.
Proof. destruct d as [[|] | [|] | | [|] m e]; reflexivity. Qed.

Local Open Scope float_scope.

Theorem sub_mul_nonpositive (a b q : float) :
  (a <? b) = true -> (0 <? q) = true -> ((a - b) * q <=? 0) = true.
Proof.
  rewrite !ltb_spec, leb_spec, mul_spec, sub_spec.
  change (Prim2SF 0) with (S754_zero false).
  intros Hab Hq. apply has_sign_true_leb_zero.
  apply SFmul_negative.
  - apply SFsub_negative; [apply Prim2SF_valid | apply Prim2SF_valid | exact Hab].
  - now apply SFltb_zero_positive.
Qed.

Theorem sub_mul_negative (a b q : float) :
  (a <? b) = true -> (1 <=? q) = true -> ((a - b) * q <? 0) = true.
Proof.
  rewrite !ltb_spec, leb_spec, mul_spec.
  change (Prim2SF 0) with (S754_zero false).
  change (Prim2SF 1) with (S754_finite false 4503599627370496 (-52)).
  intros Hab Hq. apply nonzero_true_ltb_zero.
  apply SFmul_strictly_negative; try apply Prim2SF_valid; [|exact Hq].
  rewrite sub_spec.
  apply SFsub_negative; [apply Prim2SF_valid | apply Prim2SF_valid | exact Hab].
Qed.

Theorem sub_mul_negative_unless_zero (a b q : float) :
  (a <? b) = true -> (0 <? q) = true ->
  is_zero ((a - b) * q) = false -> ((a - b) * q <? 0) = true.
Proof.
  unfold is_zero. rewrite !ltb_spec, eqb_spec, mul_spec, sub_spec.
  change (Prim2SF zero) with (S754_zero false).
  change (Prim2SF 0) with (S754_zero false).
  intros Hab Hq Hz. apply has_sign_true_not_zero; [|exact Hz].
  apply SFmul_negative.
  - apply SFsub_negative; [apply Prim2SF_valid | apply Prim2SF_valid | exact Hab].
  - now apply SFltb_zero_positive.
Qed.

Theorem mul_zero_not_negative (d : float) : (d * 0 <? 0) = false.
Proof.
  rewrite ltb_spec, mul_spec. change (Prim2SF 0) with (S754_zero false).
  apply SFmul_zero_not_negative.
Qed.

End Doubles.

Lemma to_number_zero (q : Q) : Qnum q = 0%Z -> to_number q = 0%float.
Proof. intros H. unfold to_number. rewrite H. reflexivity. Qed.

(** Some decimals and the doubles that are read for them. *)
Lemma to_number_examples :
  to_number 15 = 15%float
  /\ to_number (-4) = (-4)%float
  /\ to_number (5 # 2) = 2.5%float
  /\ to_number (1 # 10) = 0x1.999999999999ap-4%float
  /\ to_number (2 # 10) = 0x1.999999999999ap-3%float
  /\ to_number (3 # 10) = 0x1.3333333333333p-2%float
  /\ to_number (1999 # 100) = 0x1.3fd70a3d70a3dp+4%float.
Proof. repeat split; vm_compute; reflexivity. Qed.

(** ** Profit *)

(** C2, as the pages have it. The profit of a supply is computed in
    doubles: the stored sale price, cost and quantity are read as doubles,
    subtracted and multiplied, each operation rounded, in [calculateProfit]
    of the supplies page and in the reducer of the dashboard alike. No
    other column enters it, the market price in particular, and the result
    is not clamped. When the sale price is below the cost and the quantity
    is positive the result is never positive, and it is negative unless
    the product underflows to a zero, which it does not for a quantity of
    at least 1; for the quantity 0 it is not negative, whatever the
    prices. *)
Theorem calculateProfit_double (s : SupplyRow.t) :
  let sale := to_number (SupplyRow.sale_price s) in
  let cost := to_number (SupplyRow.cost s) in
  let quantity := to_number (SupplyRow.quantity s) in
  Supplies.calculateProfit s = ((sale - cost) * quantity)%float
  /\ (forall s' : SupplyRow.t,
        SupplyRow.sale_price s' = SupplyRow.sale_price s ->
        SupplyRow.cost s' = SupplyRow.cost s ->
        SupplyRow.quantity s' = SupplyRow.quantity s ->
        Supplies.calculateProfit s' = Supplies.calculateProfit s)
  /\ (forall sum : float,
        Dashboard.reducer sum s = (sum + Supplies.calculateProfit s)%float)
  /\ ((sale <? cost)%float = true -> (0 <? quantity)%float = true ->
      (Supplies.calculateProfit s <=? 0)%float = true
      /\ (is_zero (Supplies.calculateProfit s) = false ->
          (Supplies.calculateProfit s <? 0)%float = true))
  /\ ((sale <? cost)%float = true -> (1 <=? quantity)%float = true ->
      (Supplies.calculateProfit s <? 0)%float = true)
  /\ (Qnum (SupplyRow.quantity s) = 0%Z ->
      (Supplies.calculateProfit s <? 0)%float = false).
Proof.
  intros sale cost quantity.
  split; [reflexivity|].
  split.
  { intros s' Hs Hc Hq. unfold Supplies.calculateProfit. now rewrite Hs, Hc, Hq. }
  split; [reflexivity|].
  split.
  { intros Hlt Hq. split; [now apply sub_mul_nonpositive|].
    now apply sub_mul_negative_unless_zero. }
  split; [apply sub_mul_negative|].
  intros Hq. unfold Supplies.calculateProfit. rewrite (to_number_zero _ Hq).
  apply mul_zero_not_negative.
Qed.

Lemma calculateProfit_double_witness :
  Supplies.calculateProfit supply_b = (-8)%float
  /\ (Supplies.calculateProfit supply_b <? 0)%float = true.
Proof.
  split; [vm_compute; reflexivity|].
  pose proof (calculateProfit_double supply_b) as H. cbv zeta in H.
  destruct H as (_ & _ & _ & _ & H & _).
  apply H; vm_compute; reflexivity.
Defined.

(** C2, as stated, fails. A supply that costs 5, sells for 3 and has the
    quantity 0 has a profit that is not negative although the cost is
    above the sale price; and the profit of a supply that costs 0.10 and
    sells for 0.30, whose quantity is 1, is not the double of 0.20, the
    value of [(sale_price - cost) * quantity], but the double below
    it. *)
Lemma calculateProfit_not_negative :
  SupplyRow.sale_price supply_out_of_stock < SupplyRow.cost supply_out_of_stock
  /\ (Supplies.calculateProfit supply_out_of_stock <? 0)%float = false
  /\ exact_profit supply_cents == 2 # 10
  /\ (Supplies.calculateProfit supply_cents =? to_number (2 # 10))%float = false
  /\ (Supplies.calculateProfit supply_cents <? to_number (2 # 10))%float = true.
Proof. repeat split; vm_compute; reflexivity. Qed.

(** ** Dashboard *)

Lemma loadStats_with_groups be user db prev :
  (forall t, policy be (uid user) SELECT t db = None) ->
  filter (fun m => MembershipRow.user_id m =? uid user) (user_groups db) <> [] ->
  Dashboard.loadStats be user db prev
  = let ids :=
      map MembershipRow.group_id
        (filter (fun m => MembershipRow.user_id m =? uid user) (user_groups db)) in
    let rows := filter (fun s => is_in (SupplyRow.group_id s) ids) (supplies db) in
    (Dashboard.mkStats
       (Dashboard.or_zero_count (Some (List.length rows)))
       (Dashboard.or_zero_count
          (Some (List.length
                   (filter (fun g => is_in (GroupRow.id g) ids) (groups db)))))
       (Dashboard.or_zero_count
          (Some (List.length
                   (filter (fun t => is_in (TagRow.group_id t) ids) (tags db)))))
       (Dashboard.or_zero (Some (fold_left Dashboard.reducer rows 0%float))),
     None).
Proof.
  intros Hsel Hne.
  unfold Dashboard.loadStats, select_user_groups, select_supplies_in,
    count_groups_in, count_tags_in.
  rewrite !query_accepted by apply Hsel. simpl.
  destruct (filter _ (user_groups db)) as [|m ms]; [congruence|]. reflexivity.
Qed.

Lemma loadStats_without_groups be user db prev :
  filter (fun m => MembershipRow.user_id m =? uid user) (user_groups db) = [] ->
  Dashboard.loadStats be user db prev = (prev, None).
Proof.
  intros Hnil. unfold Dashboard.loadStats, select_user_groups, query, request.
  destruct (policy be (uid user) SELECT T_user_groups db); simpl;
    [reflexivity|]. now rewrite Hnil.
Qed.

Lemma loadStats_no_toast be user db prev :
  snd (Dashboard.loadStats be user db prev) = None.
Proof.
  unfold Dashboard.loadStats.
  destruct (Nat.eqb _ 0); reflexivity.
Qed.

Lemma loadStats_groups_unread be user db prev e :
  policy be (uid user) SELECT T_user_groups db = Some e ->
  Dashboard.loadStats be user db prev = (prev, None).
Proof.
  intros He. unfold Dashboard.loadStats, select_user_groups, query.
  now rewrite (request_rejected _ _ _ _ _ _ e He).
Qed.

Lemma in_groups_filters db u :
  let ids :=
    map MembershipRow.group_id
      (filter (fun m => MembershipRow.user_id m =? u) (user_groups db)) in
  filter (fun s => is_in (SupplyRow.group_id s) ids) (supplies db) = suppliesOf db u
  /\ filter (fun g => is_in (GroupRow.id g) ids) (groups db) = groupsOf db u
  /\ filter (fun t => is_in (TagRow.group_id t) ids) (tags db) = tagsOf db u.
Proof.
  unfold suppliesOf, groupsOf, tagsOf, isMember.
  repeat split; apply filter_ext; intros x; apply is_in_group_ids.
Qed.

(** C3, as the pages have it. [loadStats] never shows a toast. For a user
    with a group, when the backend answers the four reads, the three
    counts are the numbers of supplies, groups and tags of the groups the
    user is a member of, and the total profit is the sum of the profits of
    those supplies added up in doubles, from 0 and in the order in which
    the rows are stored; a total that is a zero or not a number is shown as
    0. For a user without a group, or when the memberships cannot be read,
    the statistics stay what they were: the four zeros after the page is
    opened, the previous values after a reload. *)
Theorem loadStats_dashboardStats be user db prev :
  let result := Dashboard.loadStats be user db prev in
  let total := sum_of_profits (suppliesOf db (uid user)) in
  snd result = None
  /\ ((forall g, isMember db g (uid user) = false) -> fst result = prev)
  /\ (forall e, policy be (uid user) SELECT T_user_groups db = Some e ->
      fst result = prev)
  /\ ((forall t, policy be (uid user) SELECT t db = None) ->
      forall g, isMember db g (uid user) = true ->
      fst result
      = Dashboard.mkStats
          (List.length (suppliesOf db (uid user)))
          (List.length (groupsOf db (uid user)))
          (List.length (tagsOf db (uid user)))
          (if is_zero total || is_nan total then 0%float else total)).
Proof.
  intros result total. unfold result.
  split; [apply loadStats_no_toast|]. split; [|split].
  - intros Hno. rewrite loadStats_without_groups; [reflexivity|].
    destruct (filter (fun m => MembershipRow.user_id m =? uid user) (user_groups db))
      as [|m ms] eqn:Hms; [reflexivity|]. exfalso.
    specialize (Hno (MembershipRow.group_id m)).
    unfold isMember in Hno. rewrite <- is_in_group_ids, Hms in Hno.
    simpl in Hno. rewrite String.eqb_refl in Hno. discriminate.
  - intros e He. now rewrite (loadStats_groups_unread be user db prev e He).
  - intros Hsel g Hg.
    assert (Hne : filter (fun m => MembershipRow.user_id m =? uid user)
                    (user_groups db) <> []).
    { intros Hnil. unfold isMember in Hg.
      rewrite (no_group_ids _ _ Hnil g) in Hg. discriminate. }
    destruct (in_groups_filters db (uid user)) as (Hs & Hgs & Ht).
    cbv zeta in Hs, Hgs, Ht.
    rewrite (loadStats_with_groups be user db prev Hsel Hne).
    cbv zeta. rewrite Hs, Hgs, Ht, !or_zero_count_some, fold_reducer.
    reflexivity.
Qed.

Lemma loadStats_dashboardStats_witness :
  fst (Dashboard.loadStats permissive alice one_group_db Dashboard.initialStats)
  = Dashboard.mkStats 2 1 1 2%float
  /\ fst (Dashboard.loadStats permissive carol one_group_db Dashboard.initialStats)
     = Dashboard.mkStats 0 0 0 0%float.
Proof.
  pose proof (loadStats_dashboardStats permissive alice one_group_db
                Dashboard.initialStats) as Ha.
  pose proof (loadStats_dashboardStats permissive carol one_group_db
                Dashboard.initialStats) as Hc.
  cbv zeta in Ha, Hc.
  destruct Ha as (_ & _ & _ & Ha). destruct Hc as (_ & Hc & _).
  split.
  - rewrite (Ha (fun _ => eq_refl) "g1" eq_refl). vm_compute. reflexivity.
  - apply Hc. intros g. cbn. now rewrite !andb_false_r.
Defined.

(** C3, as stated, fails. The three supplies of the group have the
    profits -0.10, -0.20 and 0.30, whose sum is 0, and the dashboard shows
    a negative total with the icon of a loss; with the same three supplies
    stored in another order the total is another number. And after alice
    has deleted her only group a reload of the dashboard that is still
    open leaves the statistics that were shown before: she belongs to no
    group and the four numbers are not zeros. *)
Lemma loadStats_total_not_the_sum :
  exact_sum_of_profits (suppliesOf cents_db (uid alice)) == 0
  /\ Dashboard.totalProfit
       (fst (Dashboard.loadStats permissive alice cents_db Dashboard.initialStats))
     = (-0x1p-54)%float
  /\ Dashboard.profitIcon
       (fst (Dashboard.loadStats permissive alice cents_db Dashboard.initialStats))
     = TrendingDown
  /\ Permutation (suppliesOf cents_db (uid alice))
       (suppliesOf cents_db_reordered (uid alice))
  /\ Dashboard.totalProfit
       (fst (Dashboard.loadStats permissive alice cents_db_reordered
               Dashboard.initialStats))
     = (-0x1p-55)%float
  /\ groupsOf (fst (Groups.handleDelete permissive alice true "g1" one_group_db))
       (uid alice) = []
  /\ Dashboard.loadStats permissive alice
       (fst (Groups.handleDelete permissive alice true "g1" one_group_db))
       (fst (Dashboard.loadStats permissive alice one_group_db
               Dashboard.initialStats))
     = (Dashboard.mkStats 2 1 1 2%float, None).
Proof.
  split; [reflexivity|]. split; [vm_compute; reflexivity|].
  split; [vm_compute; reflexivity|]. split.
  - change (Permutation [supply_c; supply_d; supply_e] [supply_e; supply_c; supply_d]).
    apply Permutation_sym.
    apply (Permutation_cons_app [supply_c; supply_d] []). apply Permutation_refl.
  - repeat split; vm_compute; reflexivity.
Qed.

(** ** Listing supplies *)

Lemma insert_desc_perm (s : SupplyRow.t) (l : list SupplyRow.t) :
  Permutation (s :: l) (insert_desc s l).
Proof.
  induction l as [|x l IH]; simpl; [reflexivity|].
  destruct (SupplyRow.created_at x <=? SupplyRow.created_at s)%Z; [reflexivity|].
  rewrite perm_swap. now apply perm_skip.
Qed.

Lemma order_created_at_desc_perm (l : list SupplyRow.t) :
  Permutation l (order_created_at_desc l).
Proof.
  induction l as [|x l IH]; simpl; [reflexivity|].
  rewrite <- insert_desc_perm. now apply perm_skip.
Qed.

Lemma insert_desc_sorted (s : SupplyRow.t) (l : list SupplyRow.t) :
  newest_first l -> newest_first (insert_desc s l).
Proof.
  unfold newest_first. induction l as [|x l IH]; intros Hl; simpl.
  - constructor; constructor.
  - inversion Hl as [|? ? Hl' Hx]; subst.
    destruct (SupplyRow.created_at x <=? SupplyRow.created_at s)%Z eqn:E.
    + apply Z.leb_le in E. constructor; [exact Hl|].
      constructor; [exact E|].
      eapply Forall_impl; [|exact Hx]. cbv beta. intros y Hy. lia.
    + apply Z.leb_gt in E. constructor; [now apply IH|].
      eapply Permutation_Forall; [apply insert_desc_perm|].
      constructor; [lia | exact Hx].
Qed.

Lemma order_created_at_desc_sorted (l : list SupplyRow.t) :
  newest_first (order_created_at_desc l).
Proof.
  induction l as [|x l IH]; simpl.
  - constructor.
  - now apply insert_desc_sorted.
Qed.

(** C8. The supplies page lists exactly the supplies of the groups the
    user is a member of, newest first, whatever those groups are; no toast
    is shown. A reload gives the same list whenever the user has a
    group. *)
Theorem loadSupplies_listSupplies be user db :
  policy be (uid user) SELECT T_user_groups db = None ->
  policy be (uid user) SELECT T_supplies db = None ->
  let result := Supplies.loadSupplies be user db [] in
  snd result = None
  /\ Forall (fun s => isMember db (SupplyRow.group_id s) (uid user) = true)
       (fst result)
  /\ newest_first (fst result)
  /\ Permutation (suppliesOf db (uid user)) (fst result)
  /\ (forall prev g, isMember db g (uid user) = true ->
      Supplies.loadSupplies be user db prev = result).
Proof.
  intros Hug Hsup result.
  assert (Hload : forall prev,
    Supplies.loadSupplies be user db prev
    = if Nat.eqb
           (List.length
              (filter (fun m => MembershipRow.user_id m =? uid user) (user_groups db)))
           0
      then (prev, None)
      else (order_created_at_desc (suppliesOf db (uid user)), None)).
  { intros prev. unfold Supplies.loadSupplies, select_user_groups,
      select_supplies_in_desc.
    rewrite !query_accepted by assumption. cbn [data_of].
    rewrite length_map.
    destruct (in_groups_filters db (uid user)) as (Hs & _). cbv zeta in Hs.
    now rewrite Hs. }
  unfold result. rewrite (Hload []).
  destruct (filter (fun m => MembershipRow.user_id m =? uid user) (user_groups db))
    as [|m ms] eqn:Hms; cbn [List.length Nat.eqb fst snd].
  - assert (Hno : forall g, isMember db g (uid user) = false)
      by (intros g; apply no_group_ids, Hms).
    unfold suppliesOf. rewrite filter_none by (intros x; apply Hno).
    repeat split; try constructor.
    intros prev g Hg. rewrite Hno in Hg. discriminate.
  - repeat split.
    + eapply Permutation_Forall; [apply order_created_at_desc_perm|].
      unfold suppliesOf. apply Forall_forall. intros s Hs.
      now apply filter_In in Hs.
    + apply order_created_at_desc_sorted.
    + apply order_created_at_desc_perm.
    + intros prev g _. rewrite Hload. reflexivity.
Qed.

Lemma loadSupplies_listSupplies_witness :
  fst (Supplies.loadSupplies permissive alice one_group_db []) = [supply_b; supply_a]
  /\ newest_first (fst (Supplies.loadSupplies permissive alice one_group_db [])).
Proof.
  split; [reflexivity|].
  apply (loadSupplies_listSupplies permissive alice one_group_db eq_refl eq_refl).
Defined.

(** ** Writing a supply *)

Lemma truthy_some (id : string) : id <> "" -> Supplies.truthy (Some id) = Some id.
Proof.
  intros H. unfold Supplies.truthy. destruct (id =? "") eqn:E; [|reflexivity].
  apply String.eqb_eq in E. contradiction.
Qed.

Lemma or_null_not_empty (s : string) : Supplies.or_null s <> Some "".
Proof.
  unfold Supplies.or_null. destruct (s =? "") eqn:E; [discriminate|].
  apply String.eqb_neq in E. congruence.
Qed.

Lemma payload_written (formData : Supplies.FormData) (s : SupplyRow.t) :
  written formData (update_row (Supplies.payload formData) s).
Proof. repeat split. Qed.

Lemma Forall2_map_self {A} (R : A -> A -> Prop) (f : A -> A) (l : list A) :
  (forall x, R x (f x)) -> Forall2 R l (map f l).
Proof. intros H. induction l; simpl; constructor; auto. Qed.

Lemma Forall2_same {A} (R : A -> A -> Prop) (l : list A) :
  (forall x, R x x) -> Forall2 R l l.
Proof. intros H. induction l; constructor; auto. Qed.

(** What [handleSubmit] leaves in the [supplies] table. *)
Lemma handleSubmit_supplies be user editingId formData db :
  let db1 := fst (Supplies.handleSubmit be user editingId formData db) in
  groups db1 = groups db /\ user_groups db1 = user_groups db /\ tags db1 = tags db
  /\ match policy be (uid user) (write_command editingId) T_supplies db with
     | Some _ => supplies db1 = supplies db
     | None =>
         match Supplies.truthy editingId with
         | Some id =>
             supplies db1
             = map (fun s => if SupplyRow.id s =? id
                             then update_row (Supplies.payload formData) s else s)
                 (supplies db)
         | None =>
             supplies db1
             = (supplies db
                ++ [update_row (Supplies.payload formData)
                      (SupplyRow.mk (gen_id be db) "" 0 0 0 0 None "" (uid user)
                         (now be db))])%list
         end
     end.
Proof.
  unfold Supplies.handleSubmit, write_command, update_supply, insert_supply, request.
  destruct (Supplies.truthy editingId) as [id|];
    destruct (policy be (uid user) _ T_supplies db); cbn; repeat split.
Qed.

(** C9. An empty [tag_id] of the form is written as [null], on create
    and on update alike. The value written is [formData.tag_id || null],
    which is never the empty string. When the backend accepts a create,
    the table has one more row and that row carries the coerced value;
    when it accepts an update, every row of the edited id carries it and
    the other rows are as before; when it rejects, the table is as before.
    So a table without empty-string tag references stays so, whatever the
    backend answers. *)
Theorem handleSubmit_tag_id_coerced be user editingId formData db :
  let db1 := fst (Supplies.handleSubmit be user editingId formData db) in
  let tag := Supplies.or_null (Supplies.tag_id formData) in
  tag <> Some ""
  /\ (Supplies.tag_id formData = "" -> tag = None)
  /\ (Supplies.tag_id formData <> "" -> tag = Some (Supplies.tag_id formData))
  /\ (policy be (uid user) (write_command editingId) T_supplies db = None ->
      Supplies.truthy editingId = None ->
      exists s, supplies db1 = (supplies db ++ [s])%list /\ SupplyRow.tag_id s = tag)
  /\ (forall id,
      policy be (uid user) (write_command editingId) T_supplies db = None ->
      Supplies.truthy editingId = Some id ->
      Forall2
        (fun s s1 => if SupplyRow.id s =? id then SupplyRow.tag_id s1 = tag else s1 = s)
        (supplies db) (supplies db1))
  /\ (forall e,
      policy be (uid user) (write_command editingId) T_supplies db = Some e ->
      supplies db1 = supplies db)
  /\ (no_empty_tag (supplies db) -> no_empty_tag (supplies db1)).
Proof.
  intros db1 tag.
  destruct (handleSubmit_supplies be user editingId formData db)
    as (_ & _ & _ & H). fold db1 in H.
  split; [apply or_null_not_empty|].
  split.
  { intros E. unfold tag. now rewrite E. }
  split.
  { intros E. unfold tag, Supplies.or_null.
    apply String.eqb_neq in E. now rewrite E. }
  split.
  { intros Hp Hc. rewrite Hp, Hc in H. eexists. split; [exact H | reflexivity]. }
  split.
  { intros id Hp Hu. rewrite Hp, Hu in H. rewrite H. apply Forall2_map_self.
    intros s. destruct (SupplyRow.id s =? id); reflexivity. }
  split.
  { intros e He. now rewrite He in H. }
  unfold no_empty_tag. intros Hdb.
  destruct (policy be (uid user) (write_command editingId) T_supplies db);
    [now rewrite H|].
  destruct (Supplies.truthy editingId) as [id|]; rewrite H.
  - apply Forall_forall. intros s Hs. apply in_map_iff in Hs.
    destruct Hs as (x & <- & Hx). rewrite Forall_forall in Hdb.
    destruct (SupplyRow.id x =? id); [apply or_null_not_empty | now apply Hdb].
  - apply Forall_app. split; [exact Hdb|].
    constructor; [apply or_null_not_empty | constructor].
Qed.

Lemma handleSubmit_tag_id_coerced_witness :
  no_empty_tag
    (supplies
       (fst (Supplies.handleSubmit permissive alice None
               (Supplies.mkForm "washers" 1 2 3 3 "" "gA") two_groups_db)))
  /\ supplies
       (fst (Supplies.handleSubmit permissive alice None
               (Supplies.mkForm "washers" 1 2 3 3 "" "gA") two_groups_db))
     = [SupplyRow.mk "s1" "bolts" 2 10 15 12 (Some "tA") "gA" "alice" 10;
        SupplyRow.mk "new" "washers" 1 2 3 3 None "gA" "alice" 100].
Proof.
  split; [|reflexivity].
  apply (handleSubmit_tag_id_coerced permissive alice None
           (Supplies.mkForm "washers" 1 2 3 3 "" "gA") two_groups_db).
  repeat constructor; discriminate.
Defined.

(** C10. An update of a supply leaves the other three tables and the
    number and order of the supplies as they are; every supply keeps its
    id, its creator and its creation time; a supply with another id is
    untouched; a supply that does change holds the seven columns of the
    form, and with an accepting backend every supply of the edited id
    does. *)
Theorem handleSubmit_update_frame be user id formData db :
  id <> "" ->
  let db1 := fst (Supplies.handleSubmit be user (Some id) formData db) in
  groups db1 = groups db /\ user_groups db1 = user_groups db /\ tags db1 = tags db
  /\ Forall2
       (fun s s1 =>
          SupplyRow.id s1 = SupplyRow.id s
          /\ SupplyRow.created_by s1 = SupplyRow.created_by s
          /\ SupplyRow.created_at s1 = SupplyRow.created_at s
          /\ (SupplyRow.id s <> id -> s1 = s)
          /\ (s1 = s \/ written formData s1)
          /\ (policy be (uid user) UPDATE T_supplies db = None ->
              SupplyRow.id s = id -> written formData s1))
       (supplies db) (supplies db1).
Proof.
  intros Hid db1.
  destruct (handleSubmit_supplies be user (Some id) formData db)
    as (Hg & Hu & Ht & H). fold db1 in Hg, Hu, Ht, H.
  unfold write_command in H. rewrite (truthy_some id Hid) in H.
  repeat (split; [assumption|]).
  destruct (policy be (uid user) UPDATE T_supplies db); rewrite H.
  - apply Forall2_same. intros s.
    do 5 (split; [auto|]). intros Hp. discriminate Hp.
  - apply Forall2_map_self. intros s.
    destruct (SupplyRow.id s =? id) eqn:E.
    + apply String.eqb_eq in E.
      do 3 (split; [reflexivity|]).
      split; [intros Hne; contradiction|].
      split; [right; apply payload_written|].
      intros _ _. apply payload_written.
    + apply String.eqb_neq in E.
      do 5 (split; [auto|]). intros _ Hs. contradiction.
Qed.

Lemma handleSubmit_update_frame_witness :
  fst renamed_s1 = Some "s1"
  /\ supplies
       (fst (Supplies.handleSubmit permissive alice (Some "s1") (snd renamed_s1)
               two_groups_db))
     = [SupplyRow.mk "s1" "washers" 2 10 15 12 (Some "tA") "gA" "alice" 10]
  /\ tags
       (fst (Supplies.handleSubmit permissive alice (Some "s1") (snd renamed_s1)
               two_groups_db))
     = tags two_groups_db.
Proof.
  split; [reflexivity|]. split; [reflexivity|].
  apply (handleSubmit_update_frame permissive alice "s1" (snd renamed_s1)
           two_groups_db).
  discriminate.
Defined.

Lemma handleSubmit_toast be user editingId formData db :
  match policy be (uid user) (write_command editingId) T_supplies db with
  | Some e =>
      Supplies.handleSubmit be user editingId formData db
      = (db, destructive "Error al guardar insumo" e)
  | None => variant (snd (Supplies.handleSubmit be user editingId formData db)) = None
  end.
Proof.
  unfold Supplies.handleSubmit, write_command, update_supply, insert_supply, request.
  destruct (Supplies.truthy editingId) as [id|];
    destruct (policy be (uid user) _ T_supplies db); reflexivity.
Qed.

(** C5, as the pages have it. [handleSubmit] compares the group of the
    tag with the group of the supply neither on create nor on update:
    when the backend accepts the request the row is written with the tag
    and the group of the form, whatever they are. The only restriction is
    in the dialog: the tag selector lists the tags that [loadTags] returns,
    those of the selected group. *)
Theorem handleSubmit_no_cross_group_check be user editingId formData db :
  policy be (uid user) (write_command editingId) T_supplies db = None ->
  let result := Supplies.handleSubmit be user editingId formData db in
  variant (snd result) = None
  /\ (Supplies.truthy editingId = None ->
      exists s, supplies (fst result) = (supplies db ++ [s])%list
                /\ written formData s /\ SupplyRow.created_by s = uid user)
  /\ (forall id, Supplies.truthy editingId = Some id ->
      Forall2
        (fun s s1 => if SupplyRow.id s =? id then written formData s1 else s1 = s)
        (supplies db) (supplies (fst result)))
  /\ (forall groupId current,
      policy be (uid user) SELECT T_tags db = None ->
      snd (Supplies.loadTags be user groupId db current) = None
      /\ forall t, In t (fst (Supplies.loadTags be user groupId db current))
                   <-> In t (tags db) /\ TagRow.group_id t = groupId).
Proof.
  intros Hp result.
  pose proof (handleSubmit_toast be user editingId formData db) as Ht.
  destruct (handleSubmit_supplies be user editingId formData db) as (_ & _ & _ & Hs).
  rewrite Hp in Ht, Hs. fold result in Ht, Hs.
  split; [exact Ht|]. split; [|split].
  - intros E. rewrite E in Hs. eexists. split; [exact Hs|].
    split; [apply payload_written | reflexivity].
  - intros id E. rewrite E in Hs. rewrite Hs. apply Forall2_map_self. intros s.
    destruct (SupplyRow.id s =? id); [apply payload_written | reflexivity].
  - intros groupId current Hsel.
    unfold Supplies.loadTags, select_tags_eq_group.
    rewrite query_accepted by assumption. cbn [fst snd].
    split; [reflexivity|]. intros t. rewrite filter_In, String.eqb_eq. reflexivity.
Qed.

Lemma handleSubmit_no_cross_group_check_witness :
  variant
    (snd (Supplies.handleSubmit permissive alice None switched_group_form
            two_groups_db)) = None.
Proof.
  apply (handleSubmit_no_cross_group_check permissive alice None switched_group_form
           two_groups_db eq_refl).
Defined.

(** C5, as stated, fails. The form below is filled with the controls of
    the dialog and satisfies its constraints; its tag was an option of the
    tag selector when it was chosen and belongs to group A, its group is
    B. Create and update both succeed and store the tag of A in a supply
    of B. *)
Lemma createSupply_cross_group_accepted :
  fst (Supplies.loadTags permissive alice "gA" two_groups_db [])
  = [TagRow.mk "tA" "of A" "#10B981" "gA" "alice"]
  /\ Supplies.formConstraints switched_group_form = true
  /\ Supplies.submitForm permissive alice None switched_group_form two_groups_db
     = (mkDatabase (groups two_groups_db) (user_groups two_groups_db)
          (tags two_groups_db)
          [SupplyRow.mk "s1" "bolts" 2 10 15 12 (Some "tA") "gA" "alice" 10;
           SupplyRow.mk "new" "washers" 0 0 0 0 (Some "tA") "gB" "alice" 100],
        Some (mkToast "Insumo creado" "El insumo ha sido creado exitosamente" None))
  /\ Supplies.submitForm permissive alice (Some "s1") switched_group_form
       two_groups_db
     = (mkDatabase (groups two_groups_db) (user_groups two_groups_db)
          (tags two_groups_db)
          [SupplyRow.mk "s1" "washers" 0 0 0 0 (Some "tA") "gB" "alice" 10],
        Some (mkToast "Insumo actualizado"
                "El insumo ha sido actualizado exitosamente" None)).
Proof. repeat split. Qed.

Lemma number_input_ok_nonneg (x : Q) : Supplies.number_input_ok x = true -> 0 <= x.
Proof.
  unfold Supplies.number_input_ok. intros H. apply andb_prop in H.
  now apply Qle_bool_iff.
Qed.

Lemma formConstraints_fields (formData : Supplies.FormData) :
  Supplies.formConstraints formData = true ->
  Supplies.name formData <> "" /\ Supplies.group_id formData <> ""
  /\ 0 <= Supplies.quantity formData /\ 0 <= Supplies.cost formData
  /\ 0 <= Supplies.sale_price formData /\ 0 <= Supplies.market_price formData.
Proof.
  unfold Supplies.formConstraints. intros H.
  apply andb_prop in H as [H Hmarket]. apply andb_prop in H as [H Hsale].
  apply andb_prop in H as [H Hcost]. apply andb_prop in H as [H Hquantity].
  apply andb_prop in H as [Hgroup Hname].
  apply negb_true_iff, String.eqb_neq in Hname, Hgroup.
  repeat split; auto using number_input_ok_nonneg.
Qed.






(** ** Creating a group *)

(** C1, as the pages have it. [handleSubmit] of the groups page sends two
    requests, the insert of the group and then the insert of the admin
    membership of its creator. When both are accepted the database holds
    the new group and that membership, and the membership query of the
    creator returns it. When the first is rejected nothing is created and
    the second is not sent. *)
Theorem handleSubmit_createGroup be user formData db :
  let group :=
    GroupRow.mk (gen_id be db) (Groups.name formData) (Groups.description formData)
      (uid user) (now be db) in
  let db_group :=
    mkDatabase (groups db ++ [group]) (user_groups db) (tags db) (supplies db) in
  let admin := MembershipRow.mk (uid user) (GroupRow.id group) "admin" in
  let result := Groups.handleSubmit be user formData db in
  (forall e, policy be (uid user) INSERT T_groups db = Some e ->
     result = (db, destructive "Error al crear grupo" e))
  /\ (policy be (uid user) INSERT T_groups db = None ->
      policy be (uid user) INSERT T_user_groups db_group = None ->
      variant (snd result) = None
      /\ In group (groups (fst result))
      /\ In admin (user_groups (fst result))
      /\ isMember (fst result) (GroupRow.id group) (uid user) = true
      /\ (forall rows,
            select_user_groups be user (uid user) (fst result) = Data rows ->
            In admin rows)).
Proof.
  intros group db_group admin result.
  unfold result, Groups.handleSubmit, insert_group, insert_user_group.
  fold group. fold db_group.
  split.
  - intros e He. now rewrite (request_rejected _ _ _ _ _ _ e He).
  - intros Hg Hm. rewrite (request_accepted _ _ _ _ _ _ Hg). cbn [fst snd].
    fold admin. rewrite (request_accepted _ _ _ _ _ _ Hm). cbn.
    assert (Hin : In admin (user_groups db ++ [admin]))
      by (apply in_or_app; right; now left).
    split; [reflexivity|].
    split; [apply in_or_app; right; now left|].
    split; [exact Hin|].
    split.
    + unfold isMember. cbn. rewrite existsb_app. cbn.
      rewrite !String.eqb_refl. cbn. apply orb_true_r.
    + intros rows. unfold select_user_groups, query, request. cbn.
      destruct (policy be (uid user) SELECT T_user_groups _); cbn; [discriminate|].
      intros H. injection H as <-. apply filter_In. split; [exact Hin|].
      cbn. apply String.eqb_refl.
Qed.

Lemma handleSubmit_createGroup_witness :
  isMember (fst (Groups.handleSubmit permissive alice (Groups.mkForm "shed" "") empty_db))
    "new" "alice" = true.
Proof.
  apply (handleSubmit_createGroup permissive alice (Groups.mkForm "shed" "") empty_db);
    reflexivity.
Defined.

(** C1, as stated, fails. With a backend that accepts the insert of the
    group and rejects the insert of the membership, the group is there
    afterwards and its creator is no member of it. *)
Lemma createGroup_not_atomic :
  Groups.handleSubmit no_membership_insert alice (Groups.mkForm "shed" "") empty_db
  = (mkDatabase [GroupRow.mk "new" "shed" "" "alice" 100] [] [] [],
     mkToast "Error al crear grupo" "permission denied" (Some "destructive"))
  /\ isMember
       (fst (Groups.handleSubmit no_membership_insert alice
               (Groups.mkForm "shed" "") empty_db))
       "new" "alice" = false.
Proof. split; reflexivity. Qed.

(** ** Referential actions *)

Lemma references_iff (deleted : list TagRow.t) (s : SupplyRow.t) :
  references deleted s = true
  <-> exists t, In t deleted /\ SupplyRow.tag_id s = Some (TagRow.id t).
Proof.
  unfold references. destruct (SupplyRow.tag_id s) as [x|]; split.
  - intros H. apply existsb_exists in H as (t & Ht & E).
    apply String.eqb_eq in E. exists t. now rewrite E.
  - intros (t & Ht & E). injection E as ->. apply existsb_exists.
    exists t. split; [exact Ht | apply String.eqb_refl].
  - discriminate.
  - intros (t & _ & E). discriminate.
Qed.

Lemma references_clear_tag (deleted : list TagRow.t) (s : SupplyRow.t) :
  references deleted (clear_tag s) = false.
Proof. reflexivity. Qed.

Lemma on_tags_deleted_nil (action : ReferentialAction) (l : list SupplyRow.t) :
  on_tags_deleted action [] l = l.
Proof.
  assert (H : forall s, references [] s = false)
    by (intros s; unfold references; now destruct (SupplyRow.tag_id s)).
  destruct action; cbn [on_tags_deleted].
  - rewrite <- (map_id l) at 2. apply map_ext. intros s. now rewrite H.
  - induction l as [|s l IH]; [reflexivity|]. cbn. rewrite H. cbn. now rewrite IH.
Qed.

Lemma on_tags_deleted_In (action : ReferentialAction) (deleted : list TagRow.t)
    (l : list SupplyRow.t) (s : SupplyRow.t) :
  In s (on_tags_deleted action deleted l) ->
  references deleted s = false
  /\ exists s0, In s0 l /\ (s = s0 \/ s = clear_tag s0).
Proof.
  destruct action; cbn [on_tags_deleted]; intros H.
  - apply in_map_iff in H as (s0 & E & H0).
    destruct (references deleted s0) eqn:R; subst s.
    + split; [apply references_clear_tag|]. exists s0. auto.
    + split; [exact R|]. exists s0. auto.
  - apply filter_In in H as [H0 R]. apply negb_true_iff in R.
    split; [exact R|]. exists s. auto.
Qed.

Lemma on_tags_deleted_keeps (action : ReferentialAction) (deleted : list TagRow.t)
    (l : list SupplyRow.t) (s : SupplyRow.t) :
  In s l -> references deleted s = false -> In s (on_tags_deleted action deleted l).
Proof.
  intros H R. destruct action; cbn [on_tags_deleted].
  - apply in_map_iff. exists s. now rewrite R.
  - apply filter_In. now rewrite R.
Qed.

Lemma not_referenced (deleted : list TagRow.t) (s : SupplyRow.t) :
  references deleted s = false
  <-> forall t, In t deleted -> SupplyRow.tag_id s <> Some (TagRow.id t).
Proof.
  split.
  - intros R t Ht E.
    assert (H : references deleted s = true)
      by (apply references_iff; now exists t).
    rewrite R in H. discriminate.
  - intros H. destruct (references deleted s) eqn:R; [|reflexivity].
    apply references_iff in R as (t & Ht & E). now destruct (H t Ht).
Qed.

(** ** Deleting a group *)

Lemma filter_neq_iff {A} (key : A -> string) (k : string) (l : list A) (x : A) :
  In x (filter (fun y => negb (key y =? k)) l) <-> In x l /\ key x <> k.
Proof.
  rewrite filter_In, negb_true_iff, String.eqb_neq. reflexivity.
Qed.

Lemma filter_eq_iff {A} (key : A -> string) (k : string) (l : list A) (x : A) :
  In x (filter (fun y => key y =? k) l) <-> In x l /\ key x = k.
Proof.
  rewrite filter_In, String.eqb_eq. reflexivity.
Qed.

(** C4, as the pages have it. A card offers the delete of its group
    exactly when the user is the creator of the group, and that is the only
    way to [handleDelete]: for another user there is nothing to invoke and
    no [Forbidden] outcome. [handleDelete] itself does not look at the
    requester: a cancelled confirm does nothing, otherwise one delete of
    the group row is sent and the answer of the backend is reported, a
    rejection with the backend's message and the database unchanged. When
    the backend accepts, with the cascade of the schema, the group, its
    tags and its memberships are gone and those of the other groups are
    kept; no supply of the group is left and no supply is left that
    references one of its tags; every supply that is left was there
    before, with its tag cleared at most, and a supply of another group
    that references none of the deleted tags is kept as it was. *)
Theorem handleDelete_deleteGroup be user groupId db :
  let result := Groups.handleDelete be user true groupId db in
  (forall group,
     GroupRow.created_by (Groups.row group) = uid user ->
     Groups.deleteClick be user group
     = Some (fun confirmed d =>
               Groups.handleDelete be user confirmed
                 (GroupRow.id (Groups.row group)) d))
  /\ (forall group,
        GroupRow.created_by (Groups.row group) <> uid user ->
        Groups.deleteClick be user group = None)
  /\ Groups.handleDelete be user false groupId db = (db, None)
  /\ (forall e,
        policy be (uid user) DELETE T_groups db = Some e ->
        result = (db, Some (destructive "Error al eliminar grupo" e)))
  /\ (policy be (uid user) DELETE T_groups db = None ->
      snd result
      = Some (mkToast "Grupo eliminado" "El grupo ha sido eliminado exitosamente"
                None)
      /\ (forall g, In g (groups (fst result))
                    <-> In g (groups db) /\ GroupRow.id g <> groupId)
      /\ (forall t, In t (tags (fst result))
                    <-> In t (tags db) /\ TagRow.group_id t <> groupId)
      /\ (forall m, In m (user_groups (fst result))
                    <-> In m (user_groups db) /\ MembershipRow.group_id m <> groupId)
      /\ (forall s, In s (supplies (fst result)) ->
            SupplyRow.group_id s <> groupId
            /\ (forall t, In t (tags db) -> TagRow.group_id t = groupId ->
                          SupplyRow.tag_id s <> Some (TagRow.id t))
            /\ exists s0, In s0 (supplies db) /\ (s = s0 \/ s = clear_tag s0))
      /\ (forall s, In s (supplies db) -> SupplyRow.group_id s <> groupId ->
            (forall t, In t (tags db) -> TagRow.group_id t = groupId ->
                       SupplyRow.tag_id s <> Some (TagRow.id t)) ->
            In s (supplies (fst result)))).
Proof.
  intros result.
  split.
  { intros group Hc. unfold Groups.deleteClick, Groups.deleteButton.
    apply String.eqb_eq in Hc. now rewrite Hc. }
  split.
  { intros group Hc. unfold Groups.deleteClick, Groups.deleteButton.
    apply String.eqb_neq in Hc. now rewrite Hc. }
  split; [reflexivity|].
  split.
  { intros e He. unfold result, Groups.handleDelete, delete_group.
    now rewrite (request_rejected _ _ _ _ _ _ e He). }
  intros Hp. unfold result, Groups.handleDelete, delete_group.
  rewrite (request_accepted _ _ _ _ _ _ Hp).
  cbn [negb fst snd delete_group_cascade groups tags user_groups supplies].
  split; [reflexivity|].
  split; [intros g; apply (filter_neq_iff GroupRow.id)|].
  split; [intros t; apply (filter_neq_iff TagRow.group_id)|].
  split; [intros m; apply (filter_neq_iff MembershipRow.group_id)|].
  split.
  - intros s Hs. apply on_tags_deleted_In in Hs as (R & s0 & H0 & E).
    apply (filter_neq_iff SupplyRow.group_id) in H0 as [H0 Hg].
    split; [destruct E as [-> | ->]; exact Hg|].
    split; [|exists s0; auto].
    intros t Ht Hgt. apply (proj1 (not_referenced _ _) R).
    apply (filter_eq_iff TagRow.group_id). auto.
  - intros s Hs Hg Hn. apply on_tags_deleted_keeps.
    + apply (filter_neq_iff SupplyRow.group_id). auto.
    + apply not_referenced. intros t Ht.
      apply (filter_eq_iff TagRow.group_id) in Ht as [Ht Hgt]. now apply Hn.
Qed.

Lemma handleDelete_deleteGroup_witness :
  Groups.handleDelete permissive alice true "g1" one_group_db
  = (empty_db,
     Some (mkToast "Grupo eliminado" "El grupo ha sido eliminado exitosamente" None))
  /\ supplies (fst (Groups.handleDelete permissive alice true "gA" shared_tag_db))
     = [SupplyRow.mk "s2" "nuts" 4 5 3 4 None "gB" "alice" 20;
        SupplyRow.mk "s3" "pins" 1 1 2 2 None "gB" "alice" 30]
  /\ snd (Groups.handleDelete permissive alice true "gA" shared_tag_db)
     = Some (mkToast "Grupo eliminado" "El grupo ha sido eliminado exitosamente"
               None)
  /\ Groups.handleDelete no_delete alice true "g1" one_group_db
     = (one_group_db,
        Some (mkToast "Error al eliminar grupo" "permission denied"
                (Some "destructive"))).
Proof.
  pose proof (handleDelete_deleteGroup permissive alice "gA" shared_tag_db) as Ha.
  pose proof (handleDelete_deleteGroup no_delete alice "g1" one_group_db) as Hr.
  cbv zeta in Ha, Hr.
  destruct Ha as (_ & _ & _ & _ & Ha). destruct Hr as (_ & _ & _ & Hr & _).
  split; [reflexivity|]. split; [reflexivity|].
  split; [apply (Ha eq_refl) | apply (Hr (mkError "permission denied") eq_refl)].
Defined.

(** C4, as stated, fails. Bob is a member of the group and not its
    creator: the card that the groups page shows him has no delete
    control, so there is no request of his to refuse and no [Forbidden]
    outcome; and when the backend refuses the delete of the creator, what
    the page reports is the message of the backend. *)
Lemma deleteGroup_not_forbidden :
  Groups.loadGroups permissive bob one_group_db []
  = ([Groups.mkGroup (GroupRow.mk "g1" "workshop" "" "alice" 1) ["member"]], None)
  /\ Groups.deleteClick permissive bob
       (Groups.mkGroup (GroupRow.mk "g1" "workshop" "" "alice" 1) ["member"])
     = None
  /\ Groups.deleteClick no_delete bob
       (Groups.mkGroup (GroupRow.mk "g1" "workshop" "" "alice" 1) ["member"])
     = None.
Proof. repeat split. Qed.

(** ** Deleting a tag *)

(** C7, as the pages have it. [handleDelete] of the tags page does not
    look at the user or at the creator of the tag: a cancelled confirm does
    nothing, otherwise one delete of the rows with the given id is sent and
    the answer of the backend is reported, a rejection with the backend's
    message and the database unchanged. When the backend accepts, for
    whatever user, the outcome is the success toast; with no tag of that id
    nothing at all changes, an absent tag being no error; every tag with
    that id is gone whoever created it and the other tags are kept; no
    supply is left that references a deleted tag, every supply that is
    left was there before, with its tag cleared at most, and a supply
    with another tag or none is kept as it was. *)
Theorem handleDelete_deleteTag be user tagId db :
  let result := Tags.handleDelete be user true tagId db in
  Tags.handleDelete be user false tagId db = (db, None)
  /\ (forall e,
        policy be (uid user) DELETE T_tags db = Some e ->
        result = (db, Some (destructive "Error al eliminar etiqueta" e)))
  /\ (policy be (uid user) DELETE T_tags db = None ->
      snd result
      = Some (mkToast "Etiqueta eliminada"
                "La etiqueta ha sido eliminada exitosamente" None)
      /\ ((forall t, In t (tags db) -> TagRow.id t <> tagId) -> fst result = db)
      /\ (forall t, In t (tags (fst result))
                    <-> In t (tags db) /\ TagRow.id t <> tagId)
      /\ groups (fst result) = groups db
      /\ user_groups (fst result) = user_groups db
      /\ (forall s, In s (supplies (fst result)) ->
            (forall t, In t (tags db) -> TagRow.id t = tagId ->
                       SupplyRow.tag_id s <> Some tagId)
            /\ exists s0, In s0 (supplies db) /\ (s = s0 \/ s = clear_tag s0))
      /\ (forall s, In s (supplies db) -> SupplyRow.tag_id s <> Some tagId ->
            In s (supplies (fst result)))).
Proof.
  intros result.
  split; [reflexivity|].
  split.
  { intros e He. unfold result, Tags.handleDelete, delete_tag.
    now rewrite (request_rejected _ _ _ _ _ _ e He). }
  intros Hp. unfold result, Tags.handleDelete, delete_tag.
  rewrite (request_accepted _ _ _ _ _ _ Hp).
  cbn [negb fst snd groups tags user_groups supplies].
  split; [reflexivity|].
  split.
  { intros Habsent.
    assert (Hne : forall t, In t (tags db) -> (TagRow.id t =? tagId) = false)
      by (intros t Ht; apply String.eqb_neq; now apply Habsent).
    rewrite (filter_none_in _ _ Hne), on_tags_deleted_nil.
    rewrite filter_all_in by (intros t Ht; now rewrite (Hne t Ht)).
    now destruct db. }
  split; [intros t; apply (filter_neq_iff TagRow.id)|].
  split; [reflexivity|]. split; [reflexivity|].
  split.
  - intros s Hs. apply on_tags_deleted_In in Hs as (R & s0 & H0 & E).
    split; [|exists s0; auto].
    intros t Ht Hid Hs. apply (proj1 (not_referenced _ _) R t).
    + apply (filter_eq_iff TagRow.id). auto.
    + now rewrite Hid.
  - intros s Hs Hn. apply on_tags_deleted_keeps; [exact Hs|].
    apply not_referenced. intros t Ht.
    apply (filter_eq_iff TagRow.id) in Ht as [_ Hid]. now rewrite Hid.
Qed.

Lemma handleDelete_deleteTag_witness :
  map TagRow.created_by (tags one_group_db) = ["alice"]
  /\ isMember one_group_db "g1" (uid bob) = true
  /\ snd (Tags.handleDelete permissive bob true "t1" one_group_db)
     = Some (mkToast "Etiqueta eliminada"
               "La etiqueta ha sido eliminada exitosamente" None)
  /\ tags (fst (Tags.handleDelete permissive bob true "t1" one_group_db)) = []
  /\ supplies (fst (Tags.handleDelete permissive alice true "tA" shared_tag_db))
     = [SupplyRow.mk "s1" "bolts" 2 10 15 12 None "gA" "alice" 10;
        SupplyRow.mk "s2" "nuts" 4 5 3 4 None "gB" "alice" 20;
        SupplyRow.mk "s3" "pins" 1 1 2 2 None "gB" "alice" 30].
Proof.
  pose proof (handleDelete_deleteTag permissive bob "t1" one_group_db) as H.
  cbv zeta in H. destruct H as (_ & _ & H).
  split; [reflexivity|]. split; [reflexivity|].
  split; [apply (H eq_refl) | split; reflexivity].
Defined.

(** C7, as stated, fails. No tag has the id: the handler reports success
    and the database is as before. The same happens on the card of a tag
    that another member has deleted in the meantime: bob deletes the tag,
    alice then presses the delete button of the card she still sees, and
    is told that the tag has been deleted. *)
Lemma deleteTag_absent_succeeds :
  existsb (fun t => TagRow.id t =? "missing") (tags two_groups_db) = false
  /\ Tags.handleDelete permissive alice true "missing" two_groups_db
     = (two_groups_db,
        Some (mkToast "Etiqueta eliminada"
                "La etiqueta ha sido eliminada exitosamente" None))
  /\ tags (fst (Tags.handleDelete permissive bob true "t1" one_group_db)) = []
  /\ Tags.handleDelete permissive alice true "t1"
       (fst (Tags.handleDelete permissive bob true "t1" one_group_db))
     = (fst (Tags.handleDelete permissive bob true "t1" one_group_db),
        Some (mkToast "Etiqueta eliminada"
                "La etiqueta ha sido eliminada exitosamente" None)).
Proof. repeat split. Qed.

(** * Further properties of the pages *)

(** ** What the two loads compute *)

Lemma member_has_rows db g u :
  isMember db g u = true ->
  filter (fun m => MembershipRow.user_id m =? u) (user_groups db) <> [].
Proof.
  intros H E. unfold isMember in H. rewrite (no_group_ids _ _ E) in H.
  discriminate.
Qed.

Lemma loadSupplies_eq be user db prev :
  policy be (uid user) SELECT T_user_groups db = None ->
  policy be (uid user) SELECT T_supplies db = None ->
  Supplies.loadSupplies be user db prev
  = (match filter (fun m => MembershipRow.user_id m =? uid user) (user_groups db) with
     | [] => prev
     | _ :: _ => order_created_at_desc (suppliesOf db (uid user))
     end, None).
Proof.
  intros Hug Hsup.
  unfold Supplies.loadSupplies, select_user_groups, select_supplies_in_desc.
  rewrite !query_accepted by assumption. cbn [data_of].
  destruct (in_groups_filters db (uid user)) as (Hs & _). cbv zeta in Hs.
  rewrite Hs.
  destruct (filter (fun m => MembershipRow.user_id m =? uid user) (user_groups db));
    reflexivity.
Qed.

Lemma loadStats_eq be user db prev :
  (forall t, policy be (uid user) SELECT t db = None) ->
  Dashboard.loadStats be user db prev
  = (match filter (fun m => MembershipRow.user_id m =? uid user) (user_groups db) with
     | [] => prev
     | _ :: _ =>
         Dashboard.mkStats
           (List.length (suppliesOf db (uid user)))
           (List.length (groupsOf db (uid user)))
           (List.length (tagsOf db (uid user)))
           (Dashboard.or_zero (Some (sum_of_profits (suppliesOf db (uid user)))))
     end, None).
Proof.
  intros Hsel.
  destruct (filter (fun m => MembershipRow.user_id m =? uid user) (user_groups db))
    as [|m ms] eqn:Hms.
  - now apply loadStats_without_groups.
  - rewrite loadStats_with_groups; [|exact Hsel|rewrite Hms; discriminate].
    destruct (in_groups_filters db (uid user)) as (Hs & Hg & Ht).
    cbv zeta in *. rewrite Hs, Hg, Ht, !or_zero_count_some, fold_reducer.
    reflexivity.
Qed.

Lemma suppliesOf_same_memberships db db1 u :
  user_groups db1 = user_groups db ->
  suppliesOf db1 u
  = filter (fun s => isMember db (SupplyRow.group_id s) u) (supplies db1).
Proof. intros H. unfold suppliesOf, isMember. now rewrite H. Qed.

(** ** Sorting and filtering *)

Lemma filter_swap {A} (p q : A -> bool) (l : list A) :
  filter p (filter q l) = filter q (filter p l).
Proof.
  induction l as [|x l IH]; simpl; [reflexivity|].
  destruct (p x) eqn:Hp, (q x) eqn:Hq; simpl; rewrite ?Hp, ?Hq, IH; reflexivity.
Qed.

Lemma insert_desc_first (s : SupplyRow.t) (l : list SupplyRow.t) :
  Forall (fun x => (SupplyRow.created_at x <= SupplyRow.created_at s)%Z) l ->
  insert_desc s l = s :: l.
Proof.
  intros H. destruct l as [|x l]; [reflexivity|]. simpl.
  inversion H as [|? ? Hx _]; subst. apply Z.leb_le in Hx. now rewrite Hx.
Qed.

Lemma filter_insert_desc (p : SupplyRow.t -> bool) (s : SupplyRow.t)
    (l : list SupplyRow.t) :
  newest_first l ->
  filter p (insert_desc s l)
  = if p s then insert_desc s (filter p l) else filter p l.
Proof.
  unfold newest_first. induction l as [|x l IH]; intros Hl.
  - simpl. destruct (p s); reflexivity.
  - inversion Hl as [|? ? Hl' Hx]; subst. cbn [insert_desc].
    destruct (SupplyRow.created_at x <=? SupplyRow.created_at s)%Z eqn:E.
    + apply Z.leb_le in E. cbn [filter]. destruct (p s); [|reflexivity].
      symmetry. apply (insert_desc_first s (filter p (x :: l))).
      apply Forall_forall. intros y Hy. apply filter_In in Hy as [Hy _].
      destruct Hy as [<- | Hy]; [exact E|].
      rewrite Forall_forall in Hx. specialize (Hx y Hy). cbv beta in Hx. lia.
    + cbn [filter]. rewrite (IH Hl').
      destruct (p x) eqn:Hpx, (p s) eqn:Hps; cbn [insert_desc]; rewrite ?E;
        reflexivity.
Qed.

Lemma filter_order_created_at_desc (p : SupplyRow.t -> bool) (l : list SupplyRow.t) :
  filter p (order_created_at_desc l) = order_created_at_desc (filter p l).
Proof.
  induction l as [|x l IH]; [reflexivity|]. cbn [order_created_at_desc filter].
  rewrite filter_insert_desc by apply order_created_at_desc_sorted.
  rewrite IH. destruct (p x); reflexivity.
Qed.

Lemma order_created_at_desc_newest (l : list SupplyRow.t) (r : SupplyRow.t) :
  Forall (fun x => (SupplyRow.created_at x < SupplyRow.created_at r)%Z) l ->
  order_created_at_desc (l ++ [r]) = r :: order_created_at_desc l.
Proof.
  induction l as [|x l IH]; intros H; [reflexivity|].
  inversion H as [|? ? Hx Hl]; subst. cbn [app order_created_at_desc].
  rewrite (IH Hl). cbn [insert_desc].
  apply Z.leb_gt in Hx. now rewrite Hx.
Qed.

(** ** Editing and deleting a supply *)





(** X2. Saving the same edit a second time changes nothing. *)
Theorem handleSubmit_update_idempotent be user id formData db :
  id <> "" ->
  policy be (uid user) UPDATE T_supplies db = None ->
  let db1 := fst (Supplies.handleSubmit be user (Some id) formData db) in
  fst (Supplies.handleSubmit be user (Some id) formData db1) = db1.
Proof.
  intros Hid Hp db1.
  destruct (handleSubmit_supplies be user (Some id) formData db)
    as (Hg & Hu & Ht & Hs).
  destruct (handleSubmit_supplies be user (Some id) formData db1)
    as (Hg1 & Hu1 & Ht1 & Hs1).
  fold db1 in Hg, Hu, Ht, Hs.
  match goal with |- fst ?r = _ => set (db2 := fst r) in * end.
  unfold write_command in Hs, Hs1. rewrite (truthy_some _ Hid) in Hs, Hs1.
  rewrite Hp in Hs.
  assert (Hsup : supplies db2 = supplies db1).
  { destruct (policy be (uid user) UPDATE T_supplies db1); [exact Hs1|].
    rewrite Hs1, Hs, map_map. apply map_ext. intros x.
    destruct (SupplyRow.id x =? id) eqn:E; cbn; rewrite E; reflexivity. }
  destruct db2, db1; cbn in *; congruence.
Qed.

Lemma handleSubmit_update_idempotent_witness :
  fst (Supplies.handleSubmit permissive alice (Some "s1") (snd renamed_s1)
         (fst (Supplies.handleSubmit permissive alice (Some "s1") (snd renamed_s1)
                 two_groups_db)))
  = fst (Supplies.handleSubmit permissive alice (Some "s1") (snd renamed_s1)
           two_groups_db).
Proof.
  apply (handleSubmit_update_idempotent permissive alice "s1" (snd renamed_s1)
           two_groups_db); [discriminate | reflexivity].
Defined.

Lemma handleDelete_supply_db be user id db :
  policy be (uid user) DELETE T_supplies db = None ->
  Supplies.handleDelete be user true id db
  = (mkDatabase (groups db) (user_groups db) (tags db)
       (filter (fun s => negb (SupplyRow.id s =? id)) (supplies db)),
     Some (mkToast "Insumo eliminado" "El insumo ha sido eliminado exitosamente"
             None)).
Proof.
  intros Hp. unfold Supplies.handleDelete, delete_supply.
  now rewrite (request_accepted _ _ _ _ _ _ Hp).
Qed.

(** X3. An accepted delete of a supply removes the supplies of that id
    and nothing else, and the list that the page reloads is the list it
    showed before without them, in the same order. A cancelled or a
    rejected delete leaves the database as it was. *)
Theorem handleDelete_supply_reload be user id db :
  policy be (uid user) DELETE T_supplies db = None ->
  policy be (uid user) SELECT T_user_groups db = None ->
  policy be (uid user) SELECT T_supplies db = None ->
  policy be (uid user) SELECT T_user_groups
    (fst (Supplies.handleDelete be user true id db)) = None ->
  policy be (uid user) SELECT T_supplies
    (fst (Supplies.handleDelete be user true id db)) = None ->
  let db1 := fst (Supplies.handleDelete be user true id db) in
  (forall s, In s (supplies db1) <-> In s (supplies db) /\ SupplyRow.id s <> id)
  /\ groups db1 = groups db /\ user_groups db1 = user_groups db
  /\ tags db1 = tags db
  /\ fst (Supplies.loadSupplies be user db1 [])
     = filter (fun s => negb (SupplyRow.id s =? id))
         (fst (Supplies.loadSupplies be user db []))
  /\ fst (Supplies.handleDelete be user false id db) = db
  /\ (forall be', policy be' (uid user) DELETE T_supplies db <> None ->
      fst (Supplies.handleDelete be' user true id db) = db).
Proof.
  intros Hdel Hug Hsup Hug1 Hsup1 db1.
  assert (Hdb1 : db1 = mkDatabase (groups db) (user_groups db) (tags db)
                         (filter (fun s => negb (SupplyRow.id s =? id)) (supplies db)))
    by (unfold db1; now rewrite handleDelete_supply_db).
  fold db1 in Hug1, Hsup1.
  rewrite (loadSupplies_eq be user db1 [] Hug1 Hsup1).
  rewrite (loadSupplies_eq be user db [] Hug Hsup).
  rewrite (suppliesOf_same_memberships db db1) by (rewrite Hdb1; reflexivity).
  rewrite Hdb1. cbn [groups user_groups tags supplies fst].
  split; [intros s; apply (filter_neq_iff SupplyRow.id)|].
  do 3 (split; [reflexivity|]). split; [|split].
  - destruct (filter (fun m => MembershipRow.user_id m =? uid user) (user_groups db));
      [reflexivity|].
    rewrite filter_order_created_at_desc. unfold suppliesOf.
    now rewrite filter_swap.
  - reflexivity.
  - intros be' Hrej. unfold Supplies.handleDelete, delete_supply, request. cbn.
    destruct (policy be' (uid user) DELETE T_supplies db); [reflexivity|].
    contradiction.
Qed.

Lemma handleDelete_supply_reload_witness :
  fst (Supplies.loadSupplies permissive alice
         (fst (Supplies.handleDelete permissive alice true "s2" one_group_db)) [])
  = filter (fun s => negb (SupplyRow.id s =? "s2"))
      (fst (Supplies.loadSupplies permissive alice one_group_db []))
  /\ fst (Supplies.loadSupplies permissive alice
            (fst (Supplies.handleDelete permissive alice true "s2" one_group_db)) [])
     = [supply_a].
Proof.
  split; [|reflexivity].
  apply (handleDelete_supply_reload permissive alice "s2" one_group_db
           eq_refl eq_refl eq_refl eq_refl eq_refl).
Defined.

(** ** Creating a supply and reloading *)

Lemma handleSubmit_create_db be user formData db :
  policy be (uid user) INSERT T_supplies db = None ->
  fst (Supplies.handleSubmit be user None formData db)
  = mkDatabase (groups db) (user_groups db) (tags db)
      (supplies db
       ++ [SupplyRow.mk (gen_id be db) (Supplies.name formData)
             (Supplies.quantity formData) (Supplies.cost formData)
             (Supplies.sale_price formData) (Supplies.market_price formData)
             (Supplies.or_null (Supplies.tag_id formData))
             (Supplies.group_id formData) (uid user) (now be db)]).
Proof.
  intros Hp. unfold Supplies.handleSubmit, insert_supply. cbn [Supplies.truthy].
  now rewrite (request_accepted _ _ _ _ _ _ Hp).
Qed.

(** X4. A supply created in a group of the user is in the list that the
    page reloads, beside the supplies listed before; when its creation
    time is later than that of every stored supply it is the first row. *)
Theorem handleSubmit_create_listed be user formData db :
  policy be (uid user) INSERT T_supplies db = None ->
  policy be (uid user) SELECT T_user_groups db = None ->
  policy be (uid user) SELECT T_supplies db = None ->
  policy be (uid user) SELECT T_user_groups
    (fst (Supplies.handleSubmit be user None formData db)) = None ->
  policy be (uid user) SELECT T_supplies
    (fst (Supplies.handleSubmit be user None formData db)) = None ->
  isMember db (Supplies.group_id formData) (uid user) = true ->
  let created :=
    SupplyRow.mk (gen_id be db) (Supplies.name formData)
      (Supplies.quantity formData) (Supplies.cost formData)
      (Supplies.sale_price formData) (Supplies.market_price formData)
      (Supplies.or_null (Supplies.tag_id formData))
      (Supplies.group_id formData) (uid user) (now be db) in
  let before := fst (Supplies.loadSupplies be user db []) in
  let after :=
    fst (Supplies.loadSupplies be user
           (fst (Supplies.handleSubmit be user None formData db)) []) in
  Permutation (created :: before) after
  /\ (Forall (fun s => (SupplyRow.created_at s < now be db)%Z) (supplies db) ->
      after = created :: before).
Proof.
  intros Hins Hug Hsup Hug1 Hsup1 Hmem created before after.
  unfold before, after.
  pose proof (handleSubmit_create_db be user formData db Hins) as Hdb1.
  fold created in Hdb1.
  set (db1 := fst (Supplies.handleSubmit be user None formData db)) in *.
  rewrite (loadSupplies_eq be user db1 [] Hug1 Hsup1).
  rewrite (loadSupplies_eq be user db [] Hug Hsup).
  rewrite (suppliesOf_same_memberships db db1) by (rewrite Hdb1; reflexivity).
  rewrite Hdb1. cbn [groups user_groups tags supplies fst].
  pose proof (member_has_rows _ _ _ Hmem) as Hrows.
  destruct (filter (fun m => MembershipRow.user_id m =? uid user) (user_groups db));
    [congruence|].
  rewrite filter_app. cbn [filter]. change (SupplyRow.group_id created)
    with (Supplies.group_id formData). rewrite Hmem.
  fold (suppliesOf db (uid user)). split.
  - rewrite <- order_created_at_desc_perm, <- order_created_at_desc_perm.
    apply Permutation_cons_append.
  - intros Hnew. apply order_created_at_desc_newest.
    unfold suppliesOf. apply Forall_forall. intros s Hs.
    apply filter_In in Hs as [Hs _]. rewrite Forall_forall in Hnew.
    now apply Hnew.
Qed.

Lemma handleSubmit_create_listed_witness :
  fst (Supplies.loadSupplies permissive alice
         (fst (Supplies.handleSubmit permissive alice None
                 (Supplies.mkForm "washers" 1 2 3 3 "" "g1") one_group_db)) [])
  = [SupplyRow.mk "new" "washers" 1 2 3 3 None "g1" "alice" 100; supply_b; supply_a].
Proof.
  apply (handleSubmit_create_listed permissive alice
           (Supplies.mkForm "washers" 1 2 3 3 "" "g1") one_group_db
           eq_refl eq_refl eq_refl eq_refl eq_refl eq_refl).
  repeat constructor.
Defined.

(** X5. A supply that some user creates in a group of which another user
    is no member changes neither the list nor the dashboard of that other
    user. *)
Theorem handleSubmit_create_other_group be author user formData db prev stats :
  policy be (uid author) INSERT T_supplies db = None ->
  (forall t, policy be (uid user) SELECT t db = None) ->
  (forall t, policy be (uid user) SELECT t
               (fst (Supplies.handleSubmit be author None formData db)) = None) ->
  isMember db (Supplies.group_id formData) (uid user) = false ->
  let db1 := fst (Supplies.handleSubmit be author None formData db) in
  Supplies.loadSupplies be user db1 prev = Supplies.loadSupplies be user db prev
  /\ Dashboard.loadStats be user db1 stats = Dashboard.loadStats be user db stats.
Proof.
  intros Hins Hsel Hsel1 Hmem db1.
  pose proof (handleSubmit_create_db be author formData db Hins) as Hdb1.
  fold db1 in Hdb1, Hsel1.
  rewrite (loadSupplies_eq be user db1 prev (Hsel1 _) (Hsel1 _)).
  rewrite (loadSupplies_eq be user db prev (Hsel _) (Hsel _)).
  rewrite (loadStats_eq be user db1 stats Hsel1).
  rewrite (loadStats_eq be user db stats Hsel).
  assert (Hs : suppliesOf db1 (uid user) = suppliesOf db (uid user)).
  { rewrite (suppliesOf_same_memberships db db1) by (rewrite Hdb1; reflexivity).
    rewrite Hdb1. cbn [supplies]. rewrite filter_app. cbn [filter SupplyRow.group_id].
    rewrite Hmem. apply app_nil_r. }
  assert (Hg : groupsOf db1 (uid user) = groupsOf db (uid user))
    by (rewrite Hdb1; reflexivity).
  assert (Ht : tagsOf db1 (uid user) = tagsOf db (uid user))
    by (rewrite Hdb1; reflexivity).
  assert (Hu : user_groups db1 = user_groups db) by (rewrite Hdb1; reflexivity).
  rewrite Hs, Hg, Ht, Hu. split; reflexivity.
Qed.

Lemma handleSubmit_create_other_group_witness :
  Supplies.loadSupplies permissive bob
    (fst (Supplies.handleSubmit permissive alice None
            (Supplies.mkForm "washers" 1 2 3 3 "" "gA") two_groups_db))
    [supply_a]
  = Supplies.loadSupplies permissive bob two_groups_db [supply_a].
Proof.
  apply (handleSubmit_create_other_group permissive alice bob
           (Supplies.mkForm "washers" 1 2 3 3 "" "gA") two_groups_db [supply_a]
           Dashboard.initialStats eq_refl (fun _ => eq_refl) (fun _ => eq_refl)
           eq_refl).
Defined.

(** ** The dashboard and the list *)

Lemma is_nan_false (v : float) : is_nan v = false -> Prim2SF v <> S754_nan.
Proof.
  unfold is_nan. rewrite eqb_spec. intros H E. rewrite E in H. discriminate.
Qed.

Lemma leb_zero_false (v : float) :
  is_nan v = false -> ((0 <=? v)%float = false <-> (v <? 0)%float = true).
Proof.
  intros H. apply is_nan_false in H. rewrite leb_spec, ltb_spec.
  change (Prim2SF 0%float) with (S754_zero false).
  destruct (Prim2SF v) as [s | [|] | | [|] m e]; try contradiction;
    cbn; split; congruence.
Qed.

Lemma or_zero_not_nan (x : option float) : is_nan (Dashboard.or_zero x) = false.
Proof.
  destruct x as [v|]; [|reflexivity]. cbn [Dashboard.or_zero].
  destruct (is_zero v) eqn:Z; [reflexivity|].
  destruct (is_nan v) eqn:N; [reflexivity | exact N].
Qed.

(** X6. The dashboard and the supplies page show the same supplies: the
    supply count of the dashboard is the number of rows of the list, the
    rows are the supplies that the dashboard adds up, newest first, the
    total is the sum of their profits in doubles in the order in which
    they are stored, and the loss icon of the total is shown exactly when
    the total is below 0. *)
Theorem loadStats_matches_loadSupplies be user db :
  (forall t, policy be (uid user) SELECT t db = None) ->
  let stats := fst (Dashboard.loadStats be user db Dashboard.initialStats) in
  let rows := fst (Supplies.loadSupplies be user db []) in
  Dashboard.totalSupplies stats = List.length rows
  /\ rows = order_created_at_desc (suppliesOf db (uid user))
  /\ Dashboard.totalProfit stats
     = Dashboard.or_zero (Some (sum_of_profits (suppliesOf db (uid user))))
  /\ (Dashboard.profitIcon stats = TrendingDown
      <-> (Dashboard.totalProfit stats <? 0)%float = true).
Proof.
  intros Hsel stats rows.
  assert (H : Dashboard.totalSupplies stats = List.length rows
              /\ rows = order_created_at_desc (suppliesOf db (uid user))
              /\ Dashboard.totalProfit stats
                 = Dashboard.or_zero
                     (Some (sum_of_profits (suppliesOf db (uid user))))).
  { unfold stats, rows.
    rewrite (loadStats_eq be user db _ Hsel).
    rewrite (loadSupplies_eq be user db [] (Hsel _) (Hsel _)).
    destruct (filter (fun m => MembershipRow.user_id m =? uid user) (user_groups db))
      eqn:Hms;
      cbn [fst Dashboard.totalSupplies Dashboard.totalProfit Dashboard.initialStats].
    - unfold suppliesOf. rewrite filter_none by (intros x; apply no_group_ids, Hms).
      repeat split.
    - split; [|split; reflexivity].
      apply Permutation_length, order_created_at_desc_perm. }
  destruct H as (Hlen & Hrows & Hsum).
  split; [exact Hlen|]. split; [exact Hrows|]. split; [exact Hsum|].
  unfold Dashboard.profitIcon. rewrite <- leb_zero_false.
  - destruct (0 <=? Dashboard.totalProfit stats)%float; split; congruence.
  - rewrite Hsum. apply or_zero_not_nan.
Qed.

Lemma loadStats_matches_loadSupplies_witness :
  Dashboard.totalSupplies
    (fst (Dashboard.loadStats permissive alice one_group_db Dashboard.initialStats))
  = List.length (fst (Supplies.loadSupplies permissive alice one_group_db [])).
Proof.
  apply (loadStats_matches_loadSupplies permissive alice one_group_db
           (fun _ => eq_refl)).
Defined.

(** ** The groups page *)

Lemma embedded_roles_member (u : string) (db : Database) (g : GroupRow.t) :
  negb (Nat.eqb (List.length (embedded_roles u db g)) 0)
  = isMember db (GroupRow.id g) u.
Proof.
  unfold embedded_roles, isMember.
  induction (user_groups db) as [|m l IH]; [reflexivity|]. cbn [filter existsb].
  destruct ((MembershipRow.group_id m =? GroupRow.id g)
            && (MembershipRow.user_id m =? u)); [reflexivity | exact IH].
Qed.

Lemma loadGroups_eq be user db current :
  policy be (uid user) SELECT T_groups db = None ->
  Groups.loadGroups be user db current
  = (map (fun g => Groups.mkGroup g (embedded_roles (uid user) db g))
       (groupsOf db (uid user)), None).
Proof.
  intros Hp. unfold Groups.loadGroups, select_groups_inner.
  rewrite (query_accepted _ _ _ _ _ Hp). rewrite map_map. cbn [fst snd].
  unfold groupsOf.
  rewrite (filter_ext _ _ (embedded_roles_member (uid user) db)). reflexivity.
Qed.

(** X8. The groups page lists exactly the groups the user is a member
    of, in the order of the table, each with at least one role, and the
    group count of the dashboard is the number of its cards. *)
Theorem loadGroups_groups_of_user be user db current :
  (forall t, policy be (uid user) SELECT t db = None) ->
  let result := Groups.loadGroups be user db current in
  snd result = None
  /\ map Groups.row (fst result) = groupsOf db (uid user)
  /\ Forall (fun group => Groups.user_groups_role group <> []) (fst result)
  /\ Dashboard.totalGroups
       (fst (Dashboard.loadStats be user db Dashboard.initialStats))
     = List.length (fst result).
Proof.
  intros Hsel result. unfold result.
  rewrite (loadGroups_eq be user db current (Hsel _)). cbn [fst snd].
  split; [reflexivity|]. split; [|split].
  - rewrite map_map. cbn. apply map_id.
  - apply Forall_forall. intros group Hin. apply in_map_iff in Hin.
    destruct Hin as (g & <- & Hg). cbn. unfold groupsOf in Hg.
    apply filter_In in Hg as [_ Hg]. rewrite <- embedded_roles_member in Hg.
    intros E. rewrite E in Hg. discriminate.
  - rewrite length_map, (loadStats_eq be user db _ Hsel).
    destruct (filter (fun m => MembershipRow.user_id m =? uid user) (user_groups db))
      eqn:Hms; [|reflexivity].
    cbn. unfold groupsOf. rewrite filter_none; [reflexivity|].
    intros g. apply no_group_ids, Hms.
Qed.

Lemma loadGroups_groups_of_user_witness :
  map Groups.row (fst (Groups.loadGroups permissive alice two_groups_db []))
  = groups two_groups_db.
Proof.
  apply (loadGroups_groups_of_user permissive alice two_groups_db []
           (fun _ => eq_refl)).
Defined.

Lemma embedded_roles_app u g gs ms ms' ts ss :
  embedded_roles u (mkDatabase gs (ms ++ ms') ts ss) g
  = (embedded_roles u (mkDatabase gs ms ts ss) g
     ++ embedded_roles u (mkDatabase gs ms' ts ss) g)%list.
Proof. unfold embedded_roles. cbn. now rewrite filter_app, map_app. Qed.

Lemma embedded_roles_groups u g gs gs' ms ts ss :
  embedded_roles u (mkDatabase gs ms ts ss) g
  = embedded_roles u (mkDatabase gs' ms ts ss) g.
Proof. reflexivity. Qed.

Lemma embedded_roles_fresh u db (g : GroupRow.t) :
  (forall m, In m (user_groups db) -> MembershipRow.group_id m <> GroupRow.id g) ->
  embedded_roles u db g = [].
Proof.
  intros H. unfold embedded_roles. rewrite filter_none_in; [reflexivity|].
  intros m Hm. apply andb_false_intro1. apply String.eqb_neq. now apply H.
Qed.

Lemma handleSubmit_group_db be user formData db :
  policy be (uid user) INSERT T_groups db = None ->
  let group :=
    GroupRow.mk (gen_id be db) (Groups.name formData) (Groups.description formData)
      (uid user) (now be db) in
  let db_group :=
    mkDatabase (groups db ++ [group]) (user_groups db) (tags db) (supplies db) in
  fst (Groups.handleSubmit be user formData db)
  = match policy be (uid user) INSERT T_user_groups db_group with
    | Some _ => db_group
    | None =>
        mkDatabase (groups db ++ [group])
          (user_groups db ++ [MembershipRow.mk (uid user) (gen_id be db) "admin"])
          (tags db) (supplies db)
    end.
Proof.
  intros Hg group db_group.
  unfold Groups.handleSubmit, insert_group, insert_user_group.
  fold group. fold db_group.
  rewrite (request_accepted _ _ _ _ _ _ Hg). cbn [fst snd].
  unfold request. destruct (policy be (uid user) INSERT T_user_groups db_group);
    reflexivity.
Qed.

(** X9. After a group is created, with an id that no stored group or
    membership carries, the reloaded groups page shows the cards it
    showed before and then the new group, whose card says
    [Administrador] and carries the delete button. *)
Theorem handleSubmit_group_listed be user formData db current :
  policy be (uid user) INSERT T_groups db = None ->
  policy be (uid user) INSERT T_user_groups
    (mkDatabase
       (groups db
        ++ [GroupRow.mk (gen_id be db) (Groups.name formData)
              (Groups.description formData) (uid user) (now be db)])
       (user_groups db) (tags db) (supplies db)) = None ->
  policy be (uid user) SELECT T_groups db = None ->
  policy be (uid user) SELECT T_groups
    (fst (Groups.handleSubmit be user formData db)) = None ->
  (forall g, In g (groups db) -> GroupRow.id g <> gen_id be db) ->
  (forall m, In m (user_groups db) -> MembershipRow.group_id m <> gen_id be db) ->
  let created :=
    Groups.mkGroup
      (GroupRow.mk (gen_id be db) (Groups.name formData)
         (Groups.description formData) (uid user) (now be db))
      ["admin"] in
  fst (Groups.loadGroups be user (fst (Groups.handleSubmit be user formData db))
         current)
  = (fst (Groups.loadGroups be user db current) ++ [created])%list
  /\ Groups.roleLabel created = "Administrador"
  /\ Groups.deleteButton user created = true.
Proof.
  intros Hg Hm Hsel Hsel1 Hfg Hfm created.
  pose proof (handleSubmit_group_db be user formData db Hg) as Hdb1.
  cbv zeta in Hdb1. rewrite Hm in Hdb1.
  set (db1 := fst (Groups.handleSubmit be user formData db)) in *.
  rewrite (loadGroups_eq be user db1 current Hsel1).
  rewrite (loadGroups_eq be user db current Hsel). cbn [fst].
  split; [|split; [reflexivity | apply String.eqb_refl]].
  set (group := GroupRow.mk (gen_id be db) (Groups.name formData)
                  (Groups.description formData) (uid user) (now be db)) in *.
  assert (Hroles : forall g,
    embedded_roles (uid user) db1 g
    = (embedded_roles (uid user) db g
       ++ (if GroupRow.id g =? gen_id be db then ["admin"] else []))%list).
  { intros g. rewrite Hdb1, embedded_roles_app. f_equal.
    unfold embedded_roles. cbn. rewrite String.eqb_refl, andb_true_r.
    rewrite (String.eqb_sym (gen_id be db)).
    destruct (GroupRow.id g =? gen_id be db); reflexivity. }
  assert (Hold : forall g, In g (groups db) ->
    embedded_roles (uid user) db1 g = embedded_roles (uid user) db g).
  { intros g Hin. rewrite Hroles.
    destruct (GroupRow.id g =? gen_id be db) eqn:E; [|apply app_nil_r].
    apply String.eqb_eq in E. now apply Hfg in Hin. }
  assert (Hnew : embedded_roles (uid user) db1 group = ["admin"]).
  { rewrite Hroles. cbn [GroupRow.id group]. rewrite String.eqb_refl.
    rewrite embedded_roles_fresh; [reflexivity|exact Hfm]. }
  unfold groupsOf.
  rewrite <- (filter_ext _ _ (embedded_roles_member (uid user) db1)).
  rewrite <- (filter_ext _ _ (embedded_roles_member (uid user) db)).
  replace (groups db1) with (groups db ++ [group])%list by (rewrite Hdb1; reflexivity).
  rewrite filter_app, map_app. f_equal.
  - rewrite (filter_ext_in _
               (fun g => negb (Nat.eqb (List.length (embedded_roles (uid user) db g)) 0))).
    + apply map_ext_in. intros g Hin. apply filter_In in Hin as [Hin _].
      now rewrite Hold.
    + intros g Hin. now rewrite Hold.
  - cbn [filter]. rewrite Hnew. cbn [List.length Nat.eqb negb map].
    rewrite Hnew. reflexivity.
Qed.

Lemma handleSubmit_group_listed_witness :
  fst (Groups.loadGroups permissive alice
         (fst (Groups.handleSubmit permissive alice (Groups.mkForm "shed" "")
                 one_group_db)) [])
  = [Groups.mkGroup (GroupRow.mk "g1" "workshop" "" "alice" 1) ["admin"];
     Groups.mkGroup (GroupRow.mk "new" "shed" "" "alice" 100) ["admin"]].
Proof.
  apply (handleSubmit_group_listed permissive alice (Groups.mkForm "shed" "")
           one_group_db [] eq_refl eq_refl eq_refl eq_refl).
  - intros g [<- | []]. discriminate.
  - intros m [<- | [<- | []]]; discriminate.
Defined.

(** X10. When the insert of the group is accepted and the insert of the
    membership is rejected, the group that was stored is not among the
    cards of the reloaded groups page: its creator does not see it. *)
Theorem handleSubmit_group_orphan_hidden be user formData db current e :
  policy be (uid user) INSERT T_groups db = None ->
  policy be (uid user) INSERT T_user_groups
    (mkDatabase
       (groups db
        ++ [GroupRow.mk (gen_id be db) (Groups.name formData)
              (Groups.description formData) (uid user) (now be db)])
       (user_groups db) (tags db) (supplies db)) = Some e ->
  policy be (uid user) SELECT T_groups db = None ->
  policy be (uid user) SELECT T_groups
    (fst (Groups.handleSubmit be user formData db)) = None ->
  (forall m, In m (user_groups db) -> MembershipRow.group_id m <> gen_id be db) ->
  In (GroupRow.mk (gen_id be db) (Groups.name formData)
        (Groups.description formData) (uid user) (now be db))
    (groups (fst (Groups.handleSubmit be user formData db)))
  /\ fst (Groups.loadGroups be user (fst (Groups.handleSubmit be user formData db))
            current)
     = fst (Groups.loadGroups be user db current).
Proof.
  intros Hg Hm Hsel Hsel1 Hfm.
  pose proof (handleSubmit_group_db be user formData db Hg) as Hdb1.
  cbv zeta in Hdb1. rewrite Hm in Hdb1.
  set (db1 := fst (Groups.handleSubmit be user formData db)) in *.
  split; [rewrite Hdb1; cbn; apply in_or_app; right; now left|].
  rewrite (loadGroups_eq be user db1 current Hsel1).
  rewrite (loadGroups_eq be user db current Hsel). cbn [fst].
  rewrite Hdb1. unfold groupsOf, isMember. cbn [groups user_groups].
  rewrite filter_app. cbn [filter GroupRow.id].
  fold (isMember db (gen_id be db) (uid user)).
  replace (isMember db (gen_id be db) (uid user)) with false.
  - rewrite app_nil_r. reflexivity.
  - symmetry. unfold isMember. apply not_true_is_false. intros Hex.
    apply existsb_exists in Hex as (m & Hin & Hmm).
    apply andb_prop in Hmm as [Hmm _]. apply String.eqb_eq in Hmm.
    now apply (Hfm m Hin).
Qed.

Lemma handleSubmit_group_orphan_hidden_witness :
  fst (Groups.loadGroups no_membership_insert alice
         (fst (Groups.handleSubmit no_membership_insert alice
                 (Groups.mkForm "shed" "") one_group_db)) [])
  = fst (Groups.loadGroups no_membership_insert alice one_group_db []).
Proof.
  apply (handleSubmit_group_orphan_hidden no_membership_insert alice
           (Groups.mkForm "shed" "") one_group_db [] (mkError "permission denied")
           eq_refl eq_refl eq_refl eq_refl).
  intros m [<- | [<- | []]]; discriminate.
Defined.

(** ** The selectors of the supply dialog *)

Lemma unique_key {A} (key : A -> string) (l : list A) (x y : A) :
  NoDup (map key l) -> In x l -> In y l -> key x = key y -> x = y.
Proof.
  induction l as [|a l IH]; intros Hnd Hx Hy E; [contradiction|].
  cbn in Hnd. inversion Hnd as [|? ? Hnot Hnd']; subst.
  destruct Hx as [<- | Hx], Hy as [<- | Hy]; auto.
  - exfalso. apply Hnot. rewrite E. now apply in_map.
  - exfalso. apply Hnot. rewrite <- E. now apply in_map.
Qed.

(** X11. The group selector of the supply dialog offers exactly the
    groups the user is a member of, the first of them becomes the selected
    group, and the button that opens the dialog is disabled exactly when
    the user has no group. *)
Theorem loadGroups_options be user db current selected :
  policy be (uid user) SELECT T_user_groups db = None ->
  NoDup (map GroupRow.id (groups db)) ->
  let result := Supplies.loadGroups be user db current selected in
  snd result = None
  /\ (forall o, In o (fst (fst result))
                <-> exists g, In g (groupsOf db (uid user))
                              /\ o = Supplies.Group.mk (GroupRow.id g) (GroupRow.name g))
  /\ snd (fst result)
     = match fst (fst result) with
       | o :: _ => Supplies.Group.id o
       | [] => selected
       end
  /\ (Supplies.newButtonDisabled (fst (fst result)) = true
      <-> groupsOf db (uid user) = []).
Proof.
  intros Hp Hnd result. unfold result, Supplies.loadGroups, select_user_groups_embed.
  rewrite (query_accepted _ _ _ _ _ Hp). cbn [fst snd].
  match goal with |- _ /\ (forall o, In o ?l <-> _) /\ _ => set (options := l) end.
  assert (Hin : forall o, In o options
    <-> exists g, In g (groupsOf db (uid user))
                  /\ o = Supplies.Group.mk (GroupRow.id g) (GroupRow.name g)).
  { intros o. unfold options. rewrite in_flat_map. split.
    - intros (item & Hitem & Ho). apply in_map_iff in Hitem.
      destruct Hitem as (m & <- & Hm). apply filter_In in Hm as [Hm Hu].
      cbn [snd] in Ho.
      destruct (find _ (groups db)) as [g|] eqn:Hf; [|contradiction].
      destruct Ho as [<- | []]. apply find_some in Hf as [Hg Hid].
      exists g. split; [|reflexivity]. unfold groupsOf. apply filter_In.
      split; [exact Hg|]. unfold isMember. apply existsb_exists. exists m.
      split; [exact Hm|]. rewrite Hu, andb_true_r.
      now rewrite String.eqb_sym.
    - intros (g & Hg & ->). unfold groupsOf in Hg. apply filter_In in Hg as [Hg Hmem].
      unfold isMember in Hmem. apply existsb_exists in Hmem as (m & Hm & Hmm).
      apply andb_prop in Hmm as [Hgid Hu].
      exists (MembershipRow.group_id m,
              find (fun g0 => GroupRow.id g0 =? MembershipRow.group_id m) (groups db)).
      split.
      + apply in_map_iff. exists m. split; [reflexivity|]. now apply filter_In.
      + cbn [snd].
        destruct (find _ (groups db)) as [g'|] eqn:Hf.
        * apply find_some in Hf as [Hg' Hid']. apply String.eqb_eq in Hid', Hgid.
          rewrite (unique_key GroupRow.id _ g' g Hnd Hg' Hg) by congruence.
          now left.
        * apply (find_none _ _ Hf) in Hg. rewrite String.eqb_sym in Hg. congruence. }
  split; [reflexivity|]. split; [exact Hin|]. split; [reflexivity|].
  unfold Supplies.newButtonDisabled. split.
  - intros Hd. destruct options as [|o os] eqn:E; [|discriminate].
    destruct (groupsOf db (uid user)) as [|g gs] eqn:Eg; [reflexivity|].
    exfalso.
    apply (proj2 (Hin (Supplies.Group.mk (GroupRow.id g) (GroupRow.name g)))).
    exists g. split; [now left | reflexivity].
  - intros Hg. destruct options as [|o os]; [reflexivity|].
    destruct (proj1 (Hin o) (or_introl eq_refl)) as (g & Hgin & _).
    rewrite Hg in Hgin. contradiction.
Qed.

Lemma loadGroups_options_witness :
  Supplies.loadGroups permissive alice two_groups_db [] ""
  = ([Supplies.Group.mk "gA" "A"; Supplies.Group.mk "gB" "B"], "gA", None)
  /\ snd (Supplies.loadGroups permissive alice two_groups_db [] "") = None.
Proof.
  split; [reflexivity|].
  apply (loadGroups_options permissive alice two_groups_db [] "" eq_refl).
  repeat constructor; cbn; intuition discriminate.
Defined.

(** X12. A tag created on the tags page becomes the last option of the
    tag selector of its group in the supply dialog and of no other
    group. *)
Theorem handleSubmit_tag_option be author user formData db current :
  policy be (uid author) INSERT T_tags db = None ->
  policy be (uid user) SELECT T_tags db = None ->
  policy be (uid user) SELECT T_tags (fst (Tags.handleSubmit be author formData db))
  = None ->
  let db1 := fst (Tags.handleSubmit be author formData db) in
  fst (Supplies.loadTags be user (Tags.group_id formData) db1 current)
  = (fst (Supplies.loadTags be user (Tags.group_id formData) db current)
     ++ [TagRow.mk (gen_id be db) (Tags.name formData) (Tags.color formData)
           (Tags.group_id formData) (uid author)])%list
  /\ (forall groupId, groupId <> Tags.group_id formData ->
      Supplies.loadTags be user groupId db1 current
      = Supplies.loadTags be user groupId db current).
Proof.
  intros Hins Hsel Hsel1 db1.
  assert (Hdb1 : db1 = mkDatabase (groups db) (user_groups db)
                         (tags db
                          ++ [TagRow.mk (gen_id be db) (Tags.name formData)
                                (Tags.color formData) (Tags.group_id formData)
                                (uid author)])
                         (supplies db)).
  { unfold db1, Tags.handleSubmit, insert_tag.
    now rewrite (request_accepted _ _ _ _ _ _ Hins). }
  fold db1 in Hsel1. unfold Supplies.loadTags, select_tags_eq_group.
  rewrite !(query_accepted _ _ _ db1 _ Hsel1), !(query_accepted _ _ _ db _ Hsel).
  cbn [fst]. split.
  - rewrite Hdb1. cbn [tags]. rewrite filter_app. cbn [filter TagRow.group_id].
    now rewrite String.eqb_refl.
  - intros groupId Hne. rewrite (query_accepted _ _ _ db1 _ Hsel1).
    rewrite (query_accepted _ _ _ db _ Hsel). f_equal.
    rewrite Hdb1. cbn [tags]. rewrite filter_app. cbn [filter TagRow.group_id].
    apply not_eq_sym, String.eqb_neq in Hne. rewrite Hne. apply app_nil_r.
Qed.

Lemma handleSubmit_tag_option_witness :
  fst (Supplies.loadTags permissive alice "gB"
         (fst (Tags.handleSubmit permissive alice
                 (Tags.mkForm "sale" "#F59E0B" "gB") two_groups_db)) [])
  = [TagRow.mk "tB" "of B" "#EF4444" "gB" "alice";
     TagRow.mk "new" "sale" "#F59E0B" "gB" "alice"].
Proof.
  apply (handleSubmit_tag_option permissive alice alice
           (Tags.mkForm "sale" "#F59E0B" "gB") two_groups_db []
           eq_refl eq_refl eq_refl).
Defined.

(** ** The number inputs *)

Lemma Qred_integer (n : Z) : Qred (n # 1) = n # 1.
Proof.
  unfold Qred.
  generalize (Z.ggcd_gcd n 1) (Z.ggcd_correct_divisors n 1).
  destruct (Z.ggcd n 1) as (g, (aa, bb)). cbn [fst snd].
  rewrite Z.gcd_1_r. intros -> [Ha Hb]. rewrite Z.mul_1_l in Ha, Hb.
  subst. reflexivity.
Qed.

(** X13. A number input of the supply dialog ([min="0" step="0.01"])
    passes the constraints of the form exactly when its value is a whole
    number of hundredths that is not negative. *)
Theorem number_input_ok_hundredths (x : Q) :
  Supplies.number_input_ok x = true
  <-> exists n : Z, (0 <= n)%Z /\ x == n # 100.
Proof.
  unfold Supplies.number_input_ok. rewrite andb_true_iff, Qle_bool_iff, Pos.eqb_eq.
  split.
  - intros [Hle Hden]. pose proof (Qred_correct (x * 100)) as Hred.
    destruct (Qred (x * 100)) as [k d]. cbn in Hden. subst d.
    exists k. destruct x as [a b].
    unfold Qeq, Qle, Qmult in *. cbn in *. split; lia.
  - intros (n & Hn & Hx). split.
    + rewrite Hx. unfold Qle. cbn. lia.
    + assert (E : x * 100 == n # 1).
      { rewrite Hx. unfold Qeq, Qmult. cbn. lia. }
      rewrite (Qred_complete _ _ E), Qred_integer. reflexivity.
Qed.

Lemma number_input_ok_hundredths_witness :
  Supplies.number_input_ok (5 # 2) = true
  /\ Supplies.number_input_ok (1 # 3) = false.
Proof.
  split; [|reflexivity].
  apply (proj2 (number_input_ok_hundredths (5 # 2))).
  exists 250%Z. split; [discriminate | reflexivity].
Defined.

(** ** Class names and the menu *)

Lemma string_append_assoc (a b c : string) : ((a ++ b) ++ c = a ++ (b ++ c))%string.
Proof. induction a as [|ch a IH]; cbn; [reflexivity | now rewrite IH]. Qed.

Lemma string_concat_app (sep : string) (l1 l2 : list string) :
  l1 <> [] -> l2 <> [] ->
  String.concat sep (l1 ++ l2)
  = (String.concat sep l1 ++ sep ++ String.concat sep l2)%string.
Proof.
  intros H1 H2. induction l1 as [|x l1 IH]; [contradiction|].
  destruct l1 as [|y l1].
  - destruct l2 as [|z l2]; [contradiction|]. reflexivity.
  - change (String.concat sep ((x :: y :: l1) ++ l2))
      with (x ++ sep ++ String.concat sep ((y :: l1) ++ l2))%string.
    rewrite IH by discriminate.
    change (String.concat sep (x :: y :: l1))
      with (x ++ sep ++ String.concat sep (y :: l1))%string.
    now rewrite !string_append_assoc.
Qed.

Lemma concat_empty_iff (sep : string) (l : list string) :
  Forall (fun s => s <> "") l -> (String.concat sep l = "" <-> l = []).
Proof.
  intros H. split; [|intros ->; reflexivity].
  destruct l as [|x l]; [reflexivity|]. intros E. exfalso.
  inversion H as [|? ? Hx _]; subst.
  destruct x as [|ch x]; [now apply Hx|]. destruct l; discriminate E.
Qed.

Lemma truthy_classes_nonempty (classes : list (option string)) :
  Forall (fun s => s <> "")
    (map Dashboard.class_text (filter Dashboard.is_truthy classes)).
Proof.
  apply Forall_forall. intros s Hs. apply in_map_iff in Hs.
  destruct Hs as (c & <- & Hc). apply filter_In in Hc as [_ Hc].
  destruct c as [v|]; [|discriminate]. cbn in *.
  apply negb_true_iff in Hc. now apply String.eqb_neq.
Qed.

Lemma cn_empty_iff (classes : list (option string)) :
  (Dashboard.cn classes =? "") = true
  <-> map Dashboard.class_text (filter Dashboard.is_truthy classes) = [].
Proof.
  rewrite String.eqb_eq. apply concat_empty_iff, truthy_classes_nonempty.
Qed.

(** X14. [cn] drops the falsy classes and joins the others with single
    spaces: the class of two lists put together is the two classes with
    one space between them, or the one that is not empty; a falsy entry
    changes nothing. On the dashboard the amount of the total profit has
    the destructive class exactly when the loss icon is shown. *)
Theorem cn_app (a b : list (option string)) :
  Dashboard.cn (a ++ b)
  = (if Dashboard.cn a =? "" then Dashboard.cn b
     else if Dashboard.cn b =? "" then Dashboard.cn a
     else Dashboard.cn a ++ " " ++ Dashboard.cn b)%string
  /\ (forall c, Dashboard.is_truthy c = false ->
      Dashboard.cn (a ++ c :: b) = Dashboard.cn (a ++ b))
  /\ (forall stats,
      Dashboard.profitClassName stats = "text-2xl font-bold text-destructive"
      <-> Dashboard.profitIcon stats = TrendingDown).
Proof.
  split; [|split].
  - destruct (Dashboard.cn a =? "") eqn:Ea.
    + apply cn_empty_iff in Ea. unfold Dashboard.cn.
      now rewrite filter_app, map_app, Ea.
    + destruct (Dashboard.cn b =? "") eqn:Eb.
      * apply cn_empty_iff in Eb. unfold Dashboard.cn.
        now rewrite filter_app, map_app, Eb, app_nil_r.
      * unfold Dashboard.cn. rewrite filter_app, map_app. apply string_concat_app.
        -- intros E. apply cn_empty_iff in E. congruence.
        -- intros E. apply cn_empty_iff in E. congruence.
  - intros c Hc. unfold Dashboard.cn. rewrite !filter_app. cbn [filter].
    now rewrite Hc.
  - intros stats. unfold Dashboard.profitClassName, Dashboard.profitIcon.
    destruct (0 <=? Dashboard.totalProfit stats)%float; cbn;
      split; intros H; try reflexivity; discriminate H.
Qed.

Lemma cn_app_witness :
  Dashboard.cn ([Some "w-full"] ++ None :: [Some "bold"]) = "w-full bold".
Proof.
  rewrite (proj1 (proj2 (cn_app [Some "w-full"] [Some "bold"])) None eq_refl).
  reflexivity.
Defined.

(** X15. Whatever the location, at most one entry of the menu is the
    active one, and one is exactly when the location is one of the four
    routes of the menu. *)
Theorem menu_one_active (pathname : string) :
  (List.length (filter (DashboardLayout.isActive pathname) DashboardLayout.menuItems)
   <= 1)%nat
  /\ (List.length
        (filter (DashboardLayout.isActive pathname) DashboardLayout.menuItems) = 1%nat
      <-> In pathname (map DashboardLayout.path DashboardLayout.menuItems))
  /\ count_occ string_dec (DashboardLayout.buttonVariants pathname) "secondary"
     = List.length
         (filter (DashboardLayout.isActive pathname) DashboardLayout.menuItems).
Proof.
  unfold DashboardLayout.buttonVariants, DashboardLayout.menuItems,
    DashboardLayout.isActive.
  cbn [filter map DashboardLayout.path In].
  destruct (pathname =? "/dashboard") eqn:E1;
    [apply String.eqb_eq in E1; subst; cbn; intuition lia|].
  destruct (pathname =? "/supplies") eqn:E2;
    [apply String.eqb_eq in E2; subst; cbn; intuition lia|].
  destruct (pathname =? "/groups") eqn:E3;
    [apply String.eqb_eq in E3; subst; cbn; intuition lia|].
  destruct (pathname =? "/tags") eqn:E4;
    [apply String.eqb_eq in E4; subst; cbn; intuition lia|].
  apply String.eqb_neq in E1, E2, E3, E4. cbn.
  repeat split; try lia; intuition congruence.
Qed.

Lemma menu_one_active_witness :
  List.length (filter (DashboardLayout.isActive "/tags") DashboardLayout.menuItems)
  = 1%nat.
Proof.
  apply (proj2 (proj1 (proj2 (menu_one_active "/tags")))). cbn. tauto.
Defined.

(** ** What the dialog lets into the table *)

(** X16. Submitting the dialog, for a create or an update and whatever
    the backend answers, keeps the table free of supplies that the dialog
    would refuse: if every stored supply has a name, a group, no negative
    number and no empty-string tag, so has every supply afterwards. *)
Theorem submitForm_keeps_valid be user editingId formData db :
  Forall valid_row (supplies db) ->
  Forall valid_row
    (supplies (fst (Supplies.submitForm be user editingId formData db))).
Proof.
  intros Hdb. unfold Supplies.submitForm.
  destruct (Supplies.formConstraints formData) eqn:Hc; [|exact Hdb].
  destruct (handleSubmit_supplies be user editingId formData db)
    as (_ & _ & _ & Hs).
  destruct (Supplies.handleSubmit be user editingId formData db) as [db1 t].
  cbn [fst] in *.
  destruct (formConstraints_fields _ Hc) as (Hn & Hg & Hq & Hco & Hsa & Hma).
  assert (Hnew : forall s, valid_row (update_row (Supplies.payload formData) s)).
  { intros s. unfold valid_row. cbn.
    repeat (split; [assumption|]). apply or_null_not_empty. }
  destruct (policy be (uid user) (write_command editingId) T_supplies db);
    [now rewrite Hs|].
  destruct (Supplies.truthy editingId) as [id|]; rewrite Hs.
  - apply Forall_forall. intros s Hin. apply in_map_iff in Hin.
    destruct Hin as (x & <- & Hx). rewrite Forall_forall in Hdb.
    destruct (SupplyRow.id x =? id); [apply Hnew | now apply Hdb].
  - apply Forall_app. split; [exact Hdb|]. constructor; [apply Hnew | constructor].
Qed.

Lemma submitForm_keeps_valid_witness :
  Forall valid_row
    (supplies (fst (Supplies.submitForm permissive alice None invalid_form
                      one_group_db)))
  /\ Forall valid_row
       (supplies (fst (Supplies.submitForm permissive alice None ghost_group_form
                         one_group_db))).
Proof.
  assert (H : Forall valid_row (supplies one_group_db)).
  { repeat constructor; cbn; try discriminate. }
  split; apply (submitForm_keeps_valid permissive alice None _ one_group_db H).
Defined.

(** ** Deleting a tag and the tag selector *)

(** X17. After an accepted delete on the tags page the tag selector of
    the supply dialog offers, for every group, the options it offered
    before without the tags of the deleted id. *)
Theorem handleDelete_tag_options be author user tagId groupId db current :
  policy be (uid author) DELETE T_tags db = None ->
  policy be (uid user) SELECT T_tags db = None ->
  policy be (uid user) SELECT T_tags
    (fst (Tags.handleDelete be author true tagId db)) = None ->
  fst (Supplies.loadTags be user groupId
         (fst (Tags.handleDelete be author true tagId db)) current)
  = filter (fun t => negb (TagRow.id t =? tagId))
      (fst (Supplies.loadTags be user groupId db current)).
Proof.
  intros Hdel Hsel Hsel1.
  assert (Htags : tags (fst (Tags.handleDelete be author true tagId db))
                  = filter (fun t => negb (TagRow.id t =? tagId)) (tags db)).
  { unfold Tags.handleDelete, delete_tag.
    now rewrite (request_accepted _ _ _ _ _ _ Hdel). }
  unfold Supplies.loadTags, select_tags_eq_group.
  rewrite (query_accepted _ _ _ _ _ Hsel1), (query_accepted _ _ _ _ _ Hsel).
  cbn [fst]. rewrite Htags. apply filter_swap.
Qed.

Lemma handleDelete_tag_options_witness :
  fst (Supplies.loadTags permissive alice "gA"
         (fst (Tags.handleDelete permissive alice true "tA" two_groups_db)) [])
  = [].
Proof.
  rewrite (handleDelete_tag_options permissive alice alice "tA" "gA" two_groups_db []
             eq_refl eq_refl eq_refl).
  reflexivity.
Defined.
